(** * Provider abstraction and format translation: token limits, format
      mapper, stream decoder and request construction.

    Shallow embedding of
      - packages/core/src/config/modelConfig.ts    (ModelConfigManager),
      - the token-limit module                     (tokenLimit),
      - packages/core/src/core/openaiClient.ts     (FormatMapper,
        OpenAIContentGenerator),
      - packages/core/src/core/contentGenerator.ts (createContentGenerator).

    Conventions.
    - A JavaScript string is a Rocq [string], the text of a response
      body included: the decoder of the stream is in streaming mode, so
      the text it hands over does not depend on where the reads cut the
      bytes.  Case folding and white space are those of the ASCII range
      (the keys of the environment, the frames of the protocol and the
      patterns are ASCII).
    - A plain JS object used as a dictionary is a [gmap string _]; names
      inherited from [Object.prototype] are not part of the model.
    - A JS number that the code stores, tests for truthiness or returns
      is an integer [Z] (token counts, indices) or a rational [Q]
      (sampling parameters); [NaN] is the [None] of an [option].
    - A value of type [any] is a [Js.value]; a call that may throw
      returns a [Js.result].
    - [JSON.parse] and [fetch] are parameters of the code that calls
      them. *)

From Stdlib Require Import ZArith QArith Ascii String List Bool Lia.
From stdpp Require Import base option list strings gmap fin_maps.

Local Open Scope Z_scope.

(* ===================================================================== *)
(** ** JavaScript string primitives used by the sources                    *)
(* ===================================================================== *)

Module JsString.

(** [c.toLowerCase()] on one ASCII character. *)
Definition lower_ascii (c : ascii) : ascii :=
  let n := nat_of_ascii c in
  if ((65 <=? n) && (n <=? 90))%nat then ascii_of_nat (n + 32) else c.

(** [s.toLowerCase()]. *)
Fixpoint toLowerCase (s : string) : string :=
  match s with
  | EmptyString => EmptyString
  | String c r => String (lower_ascii c) (toLowerCase r)
  end.

(** Comparison of two characters, exact or up to ASCII case (the [i]
    flag of a regular expression whose pattern is ASCII). *)
Definition char_eqb (ci : bool) (a b : ascii) : bool :=
  if ci then Ascii.eqb (lower_ascii a) (lower_ascii b) else Ascii.eqb a b.

(** [strip ci p s]: when [p] is a prefix of [s] (up to case if [ci]),
    what follows it. *)
Fixpoint strip (ci : bool) (p s : string) : option string :=
  match p with
  | EmptyString => Some s
  | String a p' =>
      match s with
      | EmptyString => None
      | String b s' => if char_eqb ci a b then strip ci p' s' else None
      end
  end.

(** [s.startsWith(p)]. *)
Definition startsWith (s p : string) : bool :=
  match strip false p s with Some _ => true | None => false end.

(** [s.includes(p)]. *)
Fixpoint includes (s p : string) : bool :=
  startsWith s p ||
  match s with
  | EmptyString => false
  | String _ r => includes r p
  end.

(** [s.slice(n)] for [0 <= n]. *)
Fixpoint slice (n : nat) (s : string) : string :=
  match n, s with
  | O, _ => s
  | S _, EmptyString => EmptyString
  | S k, String _ r => slice k r
  end.

(** [s.replace(p, '')] with a string pattern: the first occurrence of
    [p] is removed. *)
Fixpoint remove_first (p s : string) : string :=
  match strip false p s with
  | Some rest => rest
  | None =>
      match s with
      | EmptyString => EmptyString
      | String c r => String c (remove_first p r)
      end
  end.

(** [s.replace(/_/g, '-')]. *)
Fixpoint underscores_to_hyphens (s : string) : string :=
  match s with
  | EmptyString => EmptyString
  | String c r =>
      String (if Ascii.eqb c "_" then "-"%char else c)
             (underscores_to_hyphens r)
  end.

(** White space and line terminators of the ASCII range: TAB, LF, VT,
    FF, CR and SP. *)
Definition is_space (c : ascii) : bool :=
  let n := nat_of_ascii c in
  ((9 <=? n) && (n <=? 13) || (n =? 32))%nat.

Fixpoint trimStart (s : string) : string :=
  match s with
  | EmptyString => EmptyString
  | String c r => if is_space c then trimStart r else s
  end.

Fixpoint trimEnd (s : string) : string :=
  match s with
  | EmptyString => EmptyString
  | String c r =>
      match trimEnd r with
      | EmptyString => if is_space c then EmptyString else String c EmptyString
      | r' => String c r'
      end
  end.

(** [s.trim()]. *)
Definition trim (s : string) : string := trimEnd (trimStart s).

Definition digit_of (c : ascii) : option Z :=
  let n := nat_of_ascii c in
  if ((48 <=? n) && (n <=? 57))%nat then Some (Z.of_nat (n - 48)) else None.

(** The longest prefix of decimal digits, read from the left with the
    digits seen so far in [acc]; [None] when there is no digit. *)
Fixpoint digits (acc : option Z) (s : string) : option Z :=
  match s with
  | EmptyString => acc
  | String c r =>
      match digit_of c with
      | Some d => digits (Some (10 * default 0 acc + d)) r
      | None => acc
      end
  end.

(** [parseInt(s, 10)]: leading white space is skipped, then an optional
    sign, then the longest run of decimal digits; the result is [NaN]
    ([None]) when no digit follows. *)
Definition parseInt (s : string) : option Z :=
  match trimStart s with
  | String "-" r => Z.opp <$> digits None r
  | String "+" r => digits None r
  | r => digits None r
  end.

(** Truthiness of a string: every string but the empty one. *)
Definition truthy (s : string) : bool :=
  match s with EmptyString => false | _ => true end.

End JsString.

(* ===================================================================== *)
(** ** Regular expressions of the token-limit module                       *)
(* ===================================================================== *)

Module Regex.

Inductive regex : Type :=
| Lit (s : string)
| Seq (r1 r2 : regex)
| Alt (r1 r2 : regex)
| Opt (r : regex).

(** All the ways [r] matches a prefix of [s], each given by what is
    left of [s]; [ci] is the [i] flag. *)
Fixpoint matches (ci : bool) (r : regex) (s : string) : list string :=
  match r with
  | Lit p => match JsString.strip ci p s with Some rest => [rest] | None => [] end
  | Seq r1 r2 => flat_map (matches ci r2) (matches ci r1 s)
  | Alt r1 r2 => matches ci r1 s ++ matches ci r2 s
  | Opt r1 => matches ci r1 s ++ [s]
  end.

Definition matches_here (ci : bool) (r : regex) (s : string) : bool :=
  match matches ci r s with [] => false | _ => true end.

(** [re.test(s)] for a pattern without anchors: a match may start at
    any position. *)
Fixpoint test (ci : bool) (r : regex) (s : string) : bool :=
  matches_here ci r s ||
  match s with
  | EmptyString => false
  | String _ rest => test ci r rest
  end.

End Regex.

(* ===================================================================== *)
(** ** packages/core/src/config/modelConfig.ts                             *)
(* ===================================================================== *)

Module ModelConfig.

Import JsString.

(** [ModelConfiguration], the parsed content of models.json; both
    fields may be missing from the file. *)
Record ModelConfiguration : Type := {
  models : option (gmap string string);
  tokenLimits : option (gmap string Z)
}.

(** What [loadFromJson] finds at [cwd]/models.json. *)
Inductive ModelsJson : Type :=
| NoFile
| Unparsable
| Parsed (config : ModelConfiguration).

(** The surroundings of the process: [Object.entries(process.env)]
    (after dotenv has merged the .env file into it) and models.json. *)
Record Ambient : Type := {
  process_env : list (string * string);
  models_json : ModelsJson
}.

Definition DEFAULT_MODEL_VALUES : gmap string string :=
  list_to_map
    [ ("DEFAULT_GEMINI_MODEL", "gemini-2.5-pro");
      ("DEFAULT_GEMINI_FLASH_MODEL", "gemini-2.5-flash");
      ("DEFAULT_GEMINI_FLASH_LITE_MODEL", "gemini-2.5-flash-lite");
      ("DEFAULT_GEMINI_EMBEDDING_MODEL", "gemini-embedding-001") ]%string.

Definition DEFAULT_TOKEN_LIMITS_entries : list (string * Z) :=
  [ ("gemini-1.5-pro", 2097152);
    ("gemini-1.5-flash", 1048576);
    ("gemini-2.5-pro-preview-05-06", 1048576);
    ("gemini-2.5-pro-preview-06-05", 1048576);
    ("gemini-2.5-pro", 1048576);
    ("gemini-2.5-flash-preview-05-20", 1048576);
    ("gemini-2.5-flash", 1048576);
    ("gemini-2.5-flash-lite", 1048576);
    ("gemini-2.0-flash", 1048576);
    ("gemini-2.0-flash-preview-image-generation", 32000);
    ("gpt-4", 128000);
    ("gpt-4-turbo", 128000);
    ("gpt-4-turbo-preview", 128000);
    ("gpt-4.1", 128000);
    ("gpt-3.5-turbo", 16384);
    ("gpt-3.5-turbo-16k", 16384);
    ("gpt-4.1-mini", 16384);
    ("gpt-4-32k", 32768);
    ("gpt-4o", 128000);
    ("claude-3-opus", 200000);
    ("claude-3-sonnet", 200000);
    ("claude-3-haiku", 200000);
    ("claude-3.5-sonnet", 200000);
    ("claude-4-sonnet", 200000);
    ("llama-3.1-8b", 128000);
    ("llama-3.1-70b", 128000);
    ("llama-3.1-405b", 128000);
    ("llama-3.2-1b", 128000);
    ("llama-3.2-3b", 128000);
    ("llama-3.3-8b", 128000);
    ("llama-3.3-70b", 128000) ]%string.

Definition DEFAULT_TOKEN_LIMITS : gmap string Z :=
  list_to_map DEFAULT_TOKEN_LIMITS_entries.

(** The fields of a [ModelConfigManager]. *)
Record ModelConfigManager : Type := {
  modelOverrides : gmap string string;
  limits : gmap string Z;          (* this.tokenLimits *)
  isInitialized : bool
}.

(** [new ModelConfigManager()]. *)
Definition new_manager : ModelConfigManager :=
  {| modelOverrides := DEFAULT_MODEL_VALUES;
     limits := DEFAULT_TOKEN_LIMITS;
     isInitialized := false |}.

(** [{ ...a, ...b }]: the entries of [b] overwrite those of [a]. *)
Definition spread {V} (a b : gmap string V) : gmap string V := b ∪ a.

Definition loadFromJson (amb : Ambient) (m : ModelConfigManager)
  : ModelConfigManager :=
  match models_json amb with
  | NoFile => m
  | Unparsable => m          (* the parse error is caught and logged *)
  | Parsed config =>
      let m1 :=
        match models config with
        | Some ms => {| modelOverrides := spread (modelOverrides m) ms;
                        limits := limits m;
                        isInitialized := isInitialized m |}
        | None => m
        end in
      match tokenLimits config with
      | Some tl => {| modelOverrides := modelOverrides m1;
                      limits := spread (limits m1) tl;
                      isInitialized := isInitialized m1 |}
      | None => m1
      end
  end.

(** [process.env[key]]. *)
Definition env_get (env : list (string * string)) (key : string)
  : option string :=
  snd <$> find (fun kv => String.eqb (fst kv) key) env.

Definition envKeys : list string :=
  [ "DEFAULT_GEMINI_MODEL"; "DEFAULT_GEMINI_FLASH_MODEL";
    "DEFAULT_GEMINI_FLASH_LITE_MODEL"; "DEFAULT_GEMINI_EMBEDDING_MODEL" ]%string.

Definition TOKEN_LIMIT_PREFIX : string := "MODEL_TOKEN_LIMIT_".

(** The model name an environment key stands for:
    [key.replace('MODEL_TOKEN_LIMIT_', '').toLowerCase().replace(/_/g, '-')]. *)
Definition env_model_name (key : string) : string :=
  underscores_to_hyphens (toLowerCase (remove_first TOKEN_LIMIT_PREFIX key)).

(** One turn of the second loop of [loadFromProcessEnv]. *)
Definition env_step (tl : gmap string Z) (kv : string * string)
  : gmap string Z :=
  let '(key, value) := kv in
  if startsWith key TOKEN_LIMIT_PREFIX && truthy value then
    match parseInt value with
    | Some tokenLimit => <[env_model_name key := tokenLimit]> tl
    | None => tl
    end
  else tl.

Definition loadFromProcessEnv (amb : Ambient) (m : ModelConfigManager)
  : ModelConfigManager :=
  let overrides :=
    fold_left
      (fun mo key =>
         match env_get (process_env amb) key with
         | Some envValue => if truthy envValue then <[key := envValue]> mo else mo
         | None => mo
         end)
      envKeys (modelOverrides m) in
  {| modelOverrides := overrides;
     limits := fold_left env_step (process_env amb) (limits m);
     isInitialized := isInitialized m |}.

Definition initialize (amb : Ambient) (m : ModelConfigManager)
  : ModelConfigManager :=
  if isInitialized m then m
  else
    let m1 := loadFromJson amb m in
    let m2 := loadFromProcessEnv amb m1 in
    {| modelOverrides := modelOverrides m2;
       limits := limits m2;
       isInitialized := true |}.

(** The fallback of [getTokenLimit] for a name without a usable entry. *)
Definition pattern_limit (modelName : string) : Z :=
  if includes modelName "gpt-4" || includes modelName "claude-3" then 128000
  else if includes modelName "gpt-3.5" || includes modelName "mini"
          || includes modelName "lite" then 16384
  else 1048576.

(** [getTokenLimit(modelName)]: the value returned and the manager
    afterwards (the first call initializes it).  The test
    [if (this.tokenLimits[modelName])] holds for an entry that is a
    number other than zero. *)
Definition getTokenLimit (amb : Ambient) (m : ModelConfigManager)
    (modelName : string) : Z * ModelConfigManager :=
  let m' := if isInitialized m then m else initialize amb m in
  match limits m' !! modelName with
  | Some n => if negb (n =? 0) then (n, m') else (pattern_limit modelName, m')
  | None => (pattern_limit modelName, m')
  end.

(** [refresh()]. *)
Definition refresh (amb : Ambient) (m : ModelConfigManager)
  : ModelConfigManager :=
  initialize amb new_manager.

(** The lazily created singleton [_modelConfig] ([None] is [null]) and
    the exported [modelConfig.getTokenLimit]. *)
Definition getModelConfig (singleton : option ModelConfigManager)
  : ModelConfigManager :=
  match singleton with Some m => m | None => new_manager end.

Definition modelConfig_getTokenLimit (amb : Ambient)
    (singleton : option ModelConfigManager) (model : string)
  : Z * option ModelConfigManager :=
  let '(n, m) := getTokenLimit amb (getModelConfig singleton) model in
  (n, Some m).

End ModelConfig.

(* ===================================================================== *)
(** ** The token-limit module: tokenLimit                                  *)
(* ===================================================================== *)

Module TokenLimits.

Import Regex.

Definition DEFAULT_TOKEN_LIMIT : Z := 1048576.

(** The names answered by the [switch] itself. *)
Definition builtin_limit (model : string) : option Z :=
  if String.eqb model "gemini-1.5-pro" then Some 2097152
  else if String.eqb model "gemini-1.5-flash"
       || String.eqb model "gemini-2.5-pro-preview-05-06"
       || String.eqb model "gemini-2.5-pro-preview-06-05"
       || String.eqb model "gemini-2.5-pro"
       || String.eqb model "gemini-2.5-flash-preview-05-20"
       || String.eqb model "gemini-2.5-flash"
       || String.eqb model "gemini-2.5-flash-lite"
       || String.eqb model "gemini-2.0-flash" then Some 1048576
  else if String.eqb model "gemini-2.0-flash-preview-image-generation"
       then Some 32000
  else None.

(** [/gpt-4(\.1|-turbo|-o)?/i] *)
Definition re_gpt4 : regex :=
  Seq (Lit "gpt-4") (Opt (Alt (Lit ".1") (Alt (Lit "-turbo") (Lit "-o")))).
(** [/claude-(3|4)/i] *)
Definition re_claude : regex := Seq (Lit "claude-") (Alt (Lit "3") (Lit "4")).
(** [/llama-3/i] *)
Definition re_llama3 : regex := Lit "llama-3".
(** [/mini|lite/i] *)
Definition re_mini_lite : regex := Alt (Lit "mini") (Lit "lite").

(** The chain of regular expressions after the [try] block. *)
Definition regex_limit (model : string) : Z :=
  if test true re_gpt4 model then 128000
  else if test true re_claude model then 200000
  else if test true re_llama3 model then 128000
  else if test true re_mini_lite model then 16384
  else DEFAULT_TOKEN_LIMIT.

(** [tokenLimit(model)].  [loadable] tells whether
    [require('../config/modelConfig.js')] succeeds; when it throws (in an
    ES module [require] is not defined), the [catch] falls through to
    the regular expressions.
    [configuredLimit] is a number in every case, so the test
    [configuredLimit !== undefined] always holds.  The state threaded
    through is the [modelConfig] singleton. *)
Definition tokenLimit (loadable : bool) (amb : ModelConfig.Ambient)
    (singleton : option ModelConfig.ModelConfigManager) (model : string)
  : Z * option ModelConfig.ModelConfigManager :=
  match builtin_limit model with
  | Some n => (n, singleton)
  | None =>
      if loadable then
        ModelConfig.modelConfig_getTokenLimit amb singleton model
      else (regex_limit model, singleton)
  end.

End TokenLimits.


(* ===================================================================== *)
(** ** Untyped JavaScript values (what [response.json()] and
       [JSON.parse] hand to the code)                                      *)
(* ===================================================================== *)

Module Js.

(** A value of type [any].  An object is the list of its own properties,
    each name once. *)
#[warnings="-register-all"] Inductive value : Type :=
| VUndefined
| VNull
| VBool (b : bool)
| VNum (n : Z)
| VStr (s : string)
| VArr (xs : list value)
| VObj (fields : list (string * value)).

(** What a function throws or a promise rejects with. *)
Inductive error : Type :=
| Error (message : string)
| TypeError                                   (* a property of null or undefined *)
| ApiError (status : Z) (statusText : string) (upstream : value)
    (* Error(`OpenAI API error: ${status} ${statusText}. ${upstream}`) *)
| Rejected (reason : string).                 (* transport failure *)

(** A call either returns or throws. *)
Inductive result (A : Type) : Type :=
| Ok (a : A)
| Throw (e : error).
Arguments Ok {A} a.
Arguments Throw {A} e.

Definition bind {A B} (r : result A) (k : A -> result B) : result B :=
  match r with Ok a => k a | Throw e => Throw e end.

(** Truthiness. *)
Definition truthy (v : value) : bool :=
  match v with
  | VUndefined | VNull => false
  | VBool b => b
  | VNum n => negb (n =? 0)
  | VStr s => JsString.truthy s
  | VArr _ | VObj _ => true
  end.

Definition nullish (v : value) : bool :=
  match v with VUndefined | VNull => true | _ => false end.

Definition isArray (v : value) : bool :=
  match v with VArr _ => true | _ => false end.

Fixpoint lookup_field (fields : list (string * value)) (k : string) : value :=
  match fields with
  | [] => VUndefined
  | (k', v) :: rest => if String.eqb k' k then v else lookup_field rest k
  end.

(** [v.k] for a value that is neither null nor undefined and a name [k]
    that is not built into arrays, strings, numbers or booleans. *)
Definition field (v : value) (k : string) : value :=
  match v with
  | VObj fields => lookup_field fields k
  | _ => VUndefined
  end.

(** [v.k], which throws on null and undefined. *)
Definition get (v : value) (k : string) : result value :=
  if nullish v then Throw TypeError else Ok (field v k).

(** [v?.k]. *)
Definition get_opt (v : value) (k : string) : value :=
  if nullish v then VUndefined else field v k.

(** [v[0]] for a value that is neither null nor undefined. *)
Definition at0 (v : value) : value :=
  match v with
  | VArr (x :: _) => x
  | VStr (String c _) => VStr (String c EmptyString)
  | VObj fields => lookup_field fields "0"
  | _ => VUndefined
  end.

(** [a || b]. *)
Definition or (a b : value) : value := if truthy a then a else b.

End Js.

(* ===================================================================== *)
(** ** packages/core/src/core/openaiClient.ts: FormatMapper                *)
(* ===================================================================== *)

Module FormatMapper.

Import Js.

(** [Part] and [Content] of the Gemini SDK, as far as the mapper reads
    them: a part may carry text and may carry something else. *)
Record Part : Type := {
  text : option string;
  inlineData : option string
}.

Record Content : Type := {
  role : option string;
  parts : option (list Part)
}.

Record OpenAIMessage : Type := {
  msg_role : option string;
  msg_content : string
}.

(** [part.text] as a condition. *)
Definition has_text (part : Part) : bool :=
  match text part with Some s => JsString.truthy s | None => false end.

(** [xs.join('')] for an array of strings and undefined. *)
Definition join (xs : list (option string)) : string :=
  fold_right (fun x acc => String.append (default EmptyString x) acc) EmptyString xs.

(** [FormatMapper.geminiToOpenAI]. *)
Definition geminiToOpenAI (contents : list Content) : list OpenAIMessage :=
  map (fun content =>
         let role' :=
           if decide (role content = Some "model"%string)
           then Some "assistant"%string else role content in
         let textParts :=
           match parts content with
           | Some ps => filter (fun part => has_text part = true) ps
           | None => []
           end in
         let content_text := join (map text textParts) in
         {| msg_role := role'; msg_content := content_text |})
      contents.

(** [FormatMapper.openAIToGemini]. *)
Definition openAIToGemini (messages : list OpenAIMessage) : list Content :=
  map (fun msg =>
         {| role := if decide (msg_role msg = Some "assistant"%string)
                    then Some "model"%string else msg_role msg;
            parts := Some [ {| text := Some (msg_content msg);
                               inlineData := None |} ] |})
      messages.

(** The candidate of a [GenerateContentResponse]:
    [{content: {role, parts: [{text}]}, finishReason, index}].  The text,
    the finish reason and the index are whatever the upstream value
    holds. *)
Record CandidateContent : Type := {
  cc_role : string;
  cc_parts : list value           (* the [text] of each part *)
}.

Record Candidate : Type := {
  content : CandidateContent;
  finishReason : value;
  index : value
}.

Record UsageMetadata : Type := {
  promptTokenCount : value;
  candidatesTokenCount : value;
  totalTokenCount : value
}.

Record GenerateContentResponse : Type := {
  candidates : list Candidate;
  usageMetadata : option UsageMetadata
}.

(** [FormatMapper.openAIResponseToGemini].  The only access that can
    throw is the first one, on a response that is null. *)
Definition openAIResponseToGemini (response : value)
  : result GenerateContentResponse :=
  bind (get response "choices") (fun choices =>
  let message := field response "message" in
  let '(choice, content_text) :=
    if truthy choices && truthy (at0 choices) then
      let choice := at0 choices in
      (choice, or (get_opt (get_opt choice "message") "content") (VStr EmptyString))
    else if truthy message && isArray message && truthy (at0 message) then
      let message0 := at0 message in
      (VObj [ ("message"%string, message0);
              ("finish_reason"%string, VStr "stop");
              ("index"%string, VNum 0) ],
       or (field message0 "content") (VStr EmptyString))
    else if truthy message && negb (isArray message) then
      (VObj [ ("message"%string, message);
              ("finish_reason"%string, VStr "stop");
              ("index"%string, VNum 0) ],
       or (field message "content") (VStr EmptyString))
    else (VUndefined, VStr EmptyString) in
  let usage := field response "usage" in
  Ok {| candidates :=
          [ {| content := {| cc_role := "model"; cc_parts := [content_text] |};
               finishReason := or (get_opt choice "finish_reason") (VStr "STOP");
               index := or (get_opt choice "index") (VNum 0) |} ];
        usageMetadata :=
          if truthy usage then
            Some {| promptTokenCount := field usage "prompt_tokens";
                    candidatesTokenCount := field usage "completion_tokens";
                    totalTokenCount := field usage "total_tokens" |}
          else None |}).

End FormatMapper.

(* ===================================================================== *)
(** ** packages/core/src/core/contentGenerator.ts: configuration types     *)
(* ===================================================================== *)

Module ContentGenerator.

Inductive AuthType : Type :=
| LOGIN_WITH_GOOGLE
| USE_GEMINI
| USE_VERTEX_AI
| CLOUD_SHELL
| OPENAI_API_KEY
| AUTH_OPENAI_COMPATIBLE.

Inductive ProviderType : Type :=
| GEMINI
| OPENAI
| OPENAI_COMPATIBLE.

Record OpenAIConfig : Type := {
  organization : option string;
  maxTokens : option Z;
  temperature : option Q;
  topP : option Q
}.

Record ContentGeneratorConfig : Type := {
  provider : option ProviderType;
  model : string;
  apiKey : option string;
  baseUrl : option string;
  vertexai : option bool;
  authType : option AuthType;
  proxy : option string;
  openaiConfig : option OpenAIConfig
}.

(** Truthiness of an optional string: present and not empty. *)
Definition given (s : option string) : bool :=
  match s with Some x => JsString.truthy x | None => false end.

(** The first test of [createContentGenerator]: the configurations
    handed to [OpenAIContentGenerator]. *)
Definition selects_openai (config : ContentGeneratorConfig) : bool :=
  match provider config, authType config with
  | Some OPENAI, _ | Some OPENAI_COMPATIBLE, _ => true
  | _, Some OPENAI_API_KEY | _, Some AUTH_OPENAI_COMPATIBLE => true
  | _, _ => false
  end.

End ContentGenerator.

(* ===================================================================== *)
(** ** packages/core/src/core/openaiClient.ts: OpenAIContentGenerator      *)
(* ===================================================================== *)

Module OpenAIClient.

Import Js FormatMapper ContentGenerator.

Record OpenAIRequest : Type := {
  req_model : string;
  req_messages : list OpenAIMessage;
  max_tokens : option Z;
  req_temperature : option Q;
  top_p : option Q;
  stream : option bool
}.

(** The arguments of one [fetch]. *)
Record HttpCall : Type := {
  url : string;
  method : string;
  headers : gmap string string;
  body : OpenAIRequest            (* serialized by JSON.stringify *)
}.

(** What the reader of a response body delivers: the text of each read,
    then either [done] or a rejected read. *)
Record Reader : Type := {
  reads : list string;
  read_failure : option string
}.

Record HttpResponse : Type := {
  ok : bool;
  status : Z;
  statusText : string;
  json : result value;            (* [response.json()] *)
  reader : option Reader          (* [response.body?.getReader()] *)
}.

(** The fields of an [OpenAIContentGenerator]. *)
Record OpenAIContentGenerator : Type := {
  config : ContentGeneratorConfig;
  httpOptions : gmap string string      (* httpOptions.headers *)
}.

Definition OPENAI_DEFAULT_BASE_URL : string := "https://api.openai.com/v1".

Definition with_baseUrl (c : ContentGeneratorConfig) (u : string)
  : ContentGeneratorConfig :=
  {| provider := provider c; model := model c; apiKey := apiKey c;
     baseUrl := Some u; vertexai := vertexai c; authType := authType c;
     proxy := proxy c; openaiConfig := openaiConfig c |}.

(** The constructor.  It performs no [fetch]: its result does not depend
    on the network and is a plain value. *)
Definition new_OpenAIContentGenerator (cfg : ContentGeneratorConfig)
    (http_headers : gmap string string) : result OpenAIContentGenerator :=
  if negb (given (apiKey cfg)) then Throw (Error "OpenAI API key is required")
  else
    Ok {| config := if negb (given (baseUrl cfg))
                    then with_baseUrl cfg OPENAI_DEFAULT_BASE_URL else cfg;
          httpOptions := http_headers |}.

(** A template literal prints a missing string as [undefined]. *)
Definition interpolate (s : option string) : string := default "undefined"%string s.

Definition organization_of (g : OpenAIContentGenerator) : option string :=
  match openaiConfig (config g) with
  | Some oc => if given (organization oc) then organization oc else None
  | None => None
  end.

(** The [headers] object of [makeRequest] ([accept = false]) and of
    [makeStreamRequest] ([accept = true]): the literal, over which the
    headers of [httpOptions] are spread, and then the organization. *)
Definition request_headers (accept : bool) (g : OpenAIContentGenerator)
  : gmap string string :=
  let literal : gmap string string :=
    let base :=
      <["Authorization"%string :=
          String.append "Bearer " (interpolate (apiKey (config g)))]>
        ({[ "Content-Type"%string := "application/json"%string ]}) in
    if accept then <["Accept"%string := "text/event-stream"%string]> base else base in
  let merged := ModelConfig.spread literal (httpOptions g) in
  match organization_of g with
  | Some org => <["OpenAI-Organization"%string := org]> merged
  | None => merged
  end.

Definition endpoint_url (g : OpenAIContentGenerator) (endpoint : string) : string :=
  String.append (interpolate (baseUrl (config g))) endpoint.

(** [a || b] on optional numbers: zero is falsy. *)
Definition num_or (a b : option Q) : option Q :=
  match a with
  | Some q => if Qeq_bool q 0 then b else Some q
  | None => b
  end.

Record GenerateContentConfig : Type := {
  cfg_temperature : option Q;
  cfg_topP : option Q
}.

Inductive ContentListUnion : Type :=
| ContentArray (cs : list Content)
| SingleContent (c : Content).

Record GenerateContentParameters : Type := {
  gp_model : string;
  gp_contents : ContentListUnion;
  gp_config : option GenerateContentConfig
}.

Definition convertToContentArray (input : ContentListUnion) : list Content :=
  match input with
  | ContentArray cs => cs
  | SingleContent c => [c]
  end.

(** The [openAIRequest] built by [generateContent] and by
    [generateContentStream]. *)
Definition openAIRequest_of (g : OpenAIContentGenerator)
    (request : GenerateContentParameters) : OpenAIRequest :=
  let contents := convertToContentArray (gp_contents request) in
  let messages := geminiToOpenAI contents in
  {| req_model := gp_model request;
     req_messages := messages;
     max_tokens := oc ← openaiConfig (config g); maxTokens oc;
     req_temperature :=
       num_or (c ← gp_config request; cfg_temperature c)
              (oc ← openaiConfig (config g); temperature oc);
     top_p :=
       num_or (c ← gp_config request; cfg_topP c)
              (oc ← openaiConfig (config g); topP oc);
     stream := None |}.

Definition with_stream (r : OpenAIRequest) : OpenAIRequest :=
  {| req_model := req_model r; req_messages := req_messages r;
     max_tokens := max_tokens r; req_temperature := req_temperature r;
     top_p := top_p r; stream := Some true |}.

(** The error thrown for a response that is not ok:
    [errorData.error?.message || ''] with [errorData] the body, or [{}]
    when the body is not JSON. *)
Definition api_error (resp : HttpResponse) : error :=
  let errorData := match json resp with Ok v => v | Throw _ => VObj [] end in
  match get errorData "error" with
  | Throw e => e
  | Ok err => ApiError (status resp) (statusText resp)
                       (or (get_opt err "message") (VStr EmptyString))
  end.

(** What one generator run shows to its consumer: the values yielded, in
    order, and how the run ended ([None]: it returned). *)
Record Run (A : Type) : Type := {
  yielded : list A;
  failure : option error
}.
Arguments yielded {A} r.
Arguments failure {A} r.

Definition LF : ascii := ascii_of_nat 10.

(** [buffer.split('\n')]: never empty. *)
Fixpoint split_lines (s : string) : list string :=
  match s with
  | EmptyString => [EmptyString]
  | String c r =>
      if Ascii.eqb c LF then EmptyString :: split_lines r
      else match split_lines r with
           | l :: ls => String c l :: ls
           | [] => [String c EmptyString]
           end
  end.

Section Network.

(** [fetch], which may depend on the calls made before; and
    [JSON.parse], with [None] for a syntax error. *)
Variable fetch : list HttpCall -> HttpCall -> result HttpResponse.
Variable JSON_parse : string -> option value.

(** The constructor among the operations that thread the calls made so
    far: it makes none. *)
Definition construct (cfg : ContentGeneratorConfig)
    (http_headers : gmap string string) (log : list HttpCall)
  : result OpenAIContentGenerator * list HttpCall :=
  (new_OpenAIContentGenerator cfg http_headers, log).

(** [makeRequest('/chat/completions', body)] started after the calls
    [log]: its result and the calls made by then. *)
Definition makeRequest (g : OpenAIContentGenerator) (endpoint : string)
    (body : OpenAIRequest) (log : list HttpCall)
  : result value * list HttpCall :=
  let call := {| url := endpoint_url g endpoint; method := "POST";
                 headers := request_headers false g; body := body |} in
  let log' := log ++ [call] in
  match fetch log call with
  | Throw e => (Throw e, log')
  | Ok response =>
      if negb (ok response) then (Throw (api_error response), log')
      else (json response, log')
  end.

(** [generateContent(request)]. *)
Definition generateContent (g : OpenAIContentGenerator)
    (request : GenerateContentParameters) (log : list HttpCall)
  : result GenerateContentResponse * list HttpCall :=
  let '(response, log') :=
    makeRequest g "/chat/completions" (openAIRequest_of g request) log in
  (bind response openAIResponseToGemini, log').

(** The [for (const line of lines)] loop of [makeStreamRequest]: the
    values yielded and whether the generator returned on [[DONE]]. *)
Fixpoint for_lines (lines : list string) : list value * bool :=
  match lines with
  | [] => ([], false)
  | line :: rest =>
      let trimmed := JsString.trim line in
      if String.eqb trimmed EmptyString || negb (JsString.startsWith trimmed "data: ")
      then for_lines rest
      else
        let data := JsString.slice 6 trimmed in
        if String.eqb data "[DONE]" then ([], true)
        else match JSON_parse data with
             | Some parsed =>
                 let '(ys, returned) := for_lines rest in (parsed :: ys, returned)
             | None => for_lines rest          (* skip malformed JSON *)
             end
  end.

(** The [while (true)] loop of [makeStreamRequest] over the reads that
    remain.  The decoder is in streaming mode, so the text of a read is
    the text of its bytes. *)
Fixpoint read_loop (buffer : string) (remaining : list string)
    (rejection : option string) : Run value :=
  match remaining with
  | [] =>
      {| yielded := [];
         failure := match rejection with
                    | Some reason => Some (Rejected reason)
                    | None => None
                    end |}
  | chunk :: remaining' =>
      let buffer1 := String.append buffer chunk in
      let lines := split_lines buffer1 in
      let buffer2 := List.last lines EmptyString in     (* lines.pop() || '' *)
      let '(ys, returned) := for_lines (removelast lines) in
      if returned then {| yielded := ys; failure := None |}
      else
        let rest := read_loop buffer2 remaining' rejection in
        {| yielded := ys ++ yielded rest; failure := failure rest |}
  end.

(** [makeStreamRequest(endpoint, body)], run to its end. *)
Definition makeStreamRequest (g : OpenAIContentGenerator) (endpoint : string)
    (body : OpenAIRequest) (log : list HttpCall)
  : Run value * list HttpCall :=
  let call := {| url := endpoint_url g endpoint; method := "POST";
                 headers := request_headers true g;
                 body := with_stream body |} in
  let log' := log ++ [call] in
  match fetch log call with
  | Throw e => ({| yielded := []; failure := Some e |}, log')
  | Ok response =>
      if negb (ok response)
      then ({| yielded := []; failure := Some (api_error response) |}, log')
      else match reader response with
           | None => ({| yielded := [];
                         failure := Some (Error "Failed to get stream reader") |},
                      log')
           | Some rd => (read_loop EmptyString (reads rd) (read_failure rd), log')
           end
  end.

(** One turn of the [for await] loop of [convertStreamToGeminiFormat]:
    [None] when the chunk has no first choice, otherwise the delta of the
    chunk and the response yielded for it; it throws when
    [chunk.choices] is missing. *)
Definition convert_chunk (chunk : value)
  : result (option (value * GenerateContentResponse)) :=
  bind (get chunk "choices") (fun choices =>
  if nullish choices then Throw TypeError
  else
    let choice := at0 choices in
    if negb (truthy choice) then Ok None
    else
      let deltaContent :=
        or (get_opt (field choice "delta") "content") (VStr EmptyString) in
      Ok (Some (deltaContent,
                {| candidates :=
                     [ {| content := {| cc_role := "model";
                                        cc_parts := [deltaContent] |};
                          finishReason := field choice "finish_reason";
                          index := or (field choice "index") (VNum 0) |} ];
                   usageMetadata := None |}))).

(** [convertStreamToGeminiFormat(stream)], run to its end over a source
    that yields [chunks] and then ends as [ending] says.
    [accumulatedContent] holds the deltas appended so far. *)
Fixpoint convert_chunks (accumulatedContent : list value)
    (chunks : list value) (ending : option error)
  : Run GenerateContentResponse :=
  match chunks with
  | [] => {| yielded := []; failure := ending |}
  | chunk :: rest =>
      match convert_chunk chunk with
      | Throw e => {| yielded := []; failure := Some e |}
      | Ok None => convert_chunks accumulatedContent rest ending
      | Ok (Some (deltaContent, r)) =>
          let run :=
            convert_chunks (accumulatedContent ++ [deltaContent]) rest ending in
          {| yielded := r :: yielded run; failure := failure run |}
      end
  end.

Definition convertStreamToGeminiFormat (source : Run value)
  : Run GenerateContentResponse :=
  convert_chunks [] (yielded source) (failure source).

(** [generateContentStream(request)], consumed to its end. *)
Definition generateContentStream (g : OpenAIContentGenerator)
    (request : GenerateContentParameters) (log : list HttpCall)
  : Run GenerateContentResponse * list HttpCall :=
  let '(source, log') :=
    makeStreamRequest g "/chat/completions" (openAIRequest_of g request) log in
  (convertStreamToGeminiFormat source, log').

End Network.

(** The decoder alone: the partial responses a consumer receives from a
    body delivered as [chunks]. *)
Definition decode_stream (JSON_parse : string -> option value)
    (chunks : list string) : Run GenerateContentResponse :=
  convertStreamToGeminiFormat (read_loop JSON_parse EmptyString chunks None).

(** The text carried by a partial response. *)
Definition text_of (r : GenerateContentResponse) : list value :=
  flat_map (fun c => cc_parts (content c)) (candidates r).

End OpenAIClient.

(* ===================================================================== *)
(** ** A reference [JSON.parse]                                            *)
(* ===================================================================== *)

(** The decoder is parametric in [JSON.parse].  To run it on concrete
    frames, here is a recursive-descent parser for the JSON texts with
    integer numbers and without [\u] escapes; on a name given twice in an
    object the later value wins, as in JavaScript. *)
Module Json.

Import Js.

Definition DQ : ascii := ascii_of_nat 34.
Definition BACKSLASH : ascii := ascii_of_nat 92.

(** [q s] is [s] between double quotes. *)
Definition q (s : string) : string :=
  String DQ (String.append s (String DQ EmptyString)).

Definition is_json_space (c : ascii) : bool :=
  let n := nat_of_ascii c in
  ((n =? 32) || (n =? 9) || (n =? 10) || (n =? 13))%nat.

Fixpoint skip_ws (s : string) : string :=
  match s with
  | String c r => if is_json_space c then skip_ws r else s
  | EmptyString => EmptyString
  end.

Definition unescape (c : ascii) : option ascii :=
  let n := nat_of_ascii c in
  if (n =? 34)%nat then Some DQ
  else if (n =? 92)%nat then Some BACKSLASH
  else if (n =? 47)%nat then Some "/"%char
  else if (n =? 98)%nat then Some (ascii_of_nat 8)
  else if (n =? 102)%nat then Some (ascii_of_nat 12)
  else if (n =? 110)%nat then Some (ascii_of_nat 10)
  else if (n =? 114)%nat then Some (ascii_of_nat 13)
  else if (n =? 116)%nat then Some (ascii_of_nat 9)
  else None.

(** The characters of a string literal after its opening quote, and what
    follows the closing quote. *)
Fixpoint parse_chars (s : string) : option (string * string) :=
  match s with
  | EmptyString => None
  | String c r =>
      if Ascii.eqb c DQ then Some (EmptyString, r)
      else if Ascii.eqb c BACKSLASH then
        match r with
        | String e r' =>
            match unescape e, parse_chars r' with
            | Some c', Some (str, rest) => Some (String c' str, rest)
            | _, _ => None
            end
        | EmptyString => None
        end
      else if (nat_of_ascii c <? 32)%nat then None
      else match parse_chars r with
           | Some (str, rest) => Some (String c str, rest)
           | None => None
           end
  end.

Fixpoint span_digits (s : string) : string * string :=
  match s with
  | String c r =>
      match JsString.digit_of c with
      | Some _ => let '(ds, rest) := span_digits r in (String c ds, rest)
      | None => (EmptyString, s)
      end
  | EmptyString => (EmptyString, EmptyString)
  end.

(** An integer literal: an optional minus sign and digits, without a
    superfluous leading zero. *)
Definition parse_int (s : string) : option (Z * string) :=
  let '(neg, body) :=
    match s with
    | String "-" r => (true, r)
    | _ => (false, s)
    end in
  let '(ds, rest) := span_digits body in
  match ds with
  | EmptyString => None
  | String "0" (String _ _) => None
  | _ =>
      match JsString.digits None ds with
      | Some n => Some (if neg then - n else n, rest)
      | None => None
      end
  end.

Fixpoint has_key (k : string) (fields : list (string * value)) : bool :=
  match fields with
  | [] => false
  | (k', _) :: rest => String.eqb k' k || has_key k rest
  end.

Fixpoint parse_value (fuel : nat) (s : string) {struct fuel}
  : option (value * string) :=
  match fuel with
  | O => None
  | S fuel' =>
      match skip_ws s with
      | String "{" r =>
          match skip_ws r with
          | String "}" r' => Some (VObj [], r')
          | _ => match parse_members fuel' r with
                 | Some (fields, r') => Some (VObj fields, r')
                 | None => None
                 end
          end
      | String "[" r =>
          match skip_ws r with
          | String "]" r' => Some (VArr [], r')
          | _ => match parse_elements fuel' r with
                 | Some (xs, r') => Some (VArr xs, r')
                 | None => None
                 end
          end
      | String c r as s' =>
          if Ascii.eqb c DQ then
            match parse_chars r with
            | Some (str, r') => Some (VStr str, r')
            | None => None
            end
          else
            match JsString.strip false "true" s',
                  JsString.strip false "false" s',
                  JsString.strip false "null" s' with
            | Some r', _, _ => Some (VBool true, r')
            | _, Some r', _ => Some (VBool false, r')
            | _, _, Some r' => Some (VNull, r')
            | _, _, _ =>
                match parse_int s' with
                | Some (n, r') => Some (VNum n, r')
                | None => None
                end
            end
      | EmptyString => None
      end
  end
with parse_elements (fuel : nat) (s : string) {struct fuel}
  : option (list value * string) :=
  match fuel with
  | O => None
  | S fuel' =>
      match parse_value fuel' s with
      | Some (v, r) =>
          match skip_ws r with
          | String "," r' =>
              match parse_elements fuel' r' with
              | Some (vs, r'') => Some (v :: vs, r'')
              | None => None
              end
          | String "]" r' => Some ([v], r')
          | _ => None
          end
      | None => None
      end
  end
with parse_members (fuel : nat) (s : string) {struct fuel}
  : option (list (string * value) * string) :=
  match fuel with
  | O => None
  | S fuel' =>
      match skip_ws s with
      | String c r =>
          if Ascii.eqb c DQ then
            match parse_chars r with
            | Some (k, r1) =>
                match skip_ws r1 with
                | String ":" r2 =>
                    match parse_value fuel' r2 with
                    | Some (v, r3) =>
                        match skip_ws r3 with
                        | String "," r4 =>
                            match parse_members fuel' r4 with
                            | Some (ms, r5) =>
                                Some (if has_key k ms then ms else (k, v) :: ms, r5)
                            | None => None
                            end
                        | String "}" r4 => Some ([(k, v)], r4)
                        | _ => None
                        end
                    | None => None
                    end
                | _ => None
                end
            | None => None
            end
          else None
      | EmptyString => None
      end
  end.

(** [JSON.parse(text)] on the fragment. *)
Definition parse (text : string) : option value :=
  match parse_value (2 * String.length text + 2) text with
  | Some (v, rest) =>
      match skip_ws rest with
      | EmptyString => Some v
      | _ => None
      end
  | None => None
  end.

End Json.

(* ===================================================================== *)
(** ** Vocabulary of the statements                                        *)
(* ===================================================================== *)

Module Scenario.

Import JsString ModelConfig.

(** An entry of [process.env] that sets the token limit of [name]: the
    entries on which the second loop of [loadFromProcessEnv] writes
    [tokenLimits[name]]. *)
Definition is_override (name : string) (kv : string * string) : bool :=
  startsWith (fst kv) TOKEN_LIMIT_PREFIX
  && truthy (snd kv)
  && bool_decide (is_Some (parseInt (snd kv)))
  && String.eqb (env_model_name (fst kv)) name.

(** [s] contains the lower-case text [p], ignoring the case of [s]. *)
Definition contains_ci (s p : string) : bool := includes (toLowerCase s) p.

(** The rules of the resolver for a name without an entry, as the
    specification orders them. *)
Definition family_limit (name : string) : Z :=
  if contains_ci name "gpt-4" then 128000
  else if contains_ci name "claude-3" || contains_ci name "claude-4" then 200000
  else if contains_ci name "llama-3" then 128000
  else if contains_ci name "mini" || contains_ci name "lite" then 16384
  else 1048576.

(** No environment variable, no models.json. *)
Definition bare : Ambient := {| process_env := []; models_json := NoFile |}.

(** Only environment variables. *)
Definition with_env (env : list (string * string)) : Ambient :=
  {| process_env := env; models_json := NoFile |}.

(** Only token limits in models.json. *)
Definition with_file_limits (entries : list (string * Z)) : Ambient :=
  {| process_env := [];
     models_json := Parsed {| models := None;
                              tokenLimits := Some (list_to_map entries) |} |}.

(** The text a Native content carries: its text-bearing parts, in order,
    with nothing between them. *)
Definition text_of_parts (ps : list FormatMapper.Part) : string :=
  fold_right
    (fun p acc =>
       match FormatMapper.text p with
       | Some s => String.append s acc
       | None => acc
       end)
    EmptyString ps.

Definition flattened_text (c : FormatMapper.Content) : string :=
  text_of_parts (default [] (FormatMapper.parts c)).

(** A content with its text in one part. *)
Definition flatten (c : FormatMapper.Content) : FormatMapper.Content :=
  {| FormatMapper.role := FormatMapper.role c;
     FormatMapper.parts :=
       Some [ {| FormatMapper.text := Some (flattened_text c);
                 FormatMapper.inlineData := None |} ] |}.

(** The candidate [{content: {role: 'model', parts: [{text}]},
    finishReason, index}]. *)
Definition candidate_of (txt fr idx : Js.value) : FormatMapper.Candidate :=
  {| FormatMapper.content :=
       {| FormatMapper.cc_role := "model"; FormatMapper.cc_parts := [txt] |};
     FormatMapper.finishReason := fr;
     FormatMapper.index := idx |}.

(** A message [{role: 'assistant', content: s}] as it arrives. *)
Definition assistant_message (s : string) : Js.value :=
  Js.VObj [ ("role"%string, Js.VStr "assistant"); ("content"%string, Js.VStr s) ].

(** The three envelopes around a message, without finish reason and
    without index. *)
Definition standard_envelope (msg : Js.value) : Js.value :=
  Js.VObj [ ("choices"%string, Js.VArr [ Js.VObj [ ("message"%string, msg) ] ]) ].
Definition legacy_array_envelope (msg : Js.value) : Js.value :=
  Js.VObj [ ("message"%string, Js.VArr [ msg ]) ].
Definition legacy_single_envelope (msg : Js.value) : Js.value :=
  Js.VObj [ ("message"%string, msg) ].

(** A configuration for the OpenAI provider. *)
Definition openai_config (key url : option string)
    (oc : option ContentGenerator.OpenAIConfig)
  : ContentGenerator.ContentGeneratorConfig :=
  {| ContentGenerator.provider := Some ContentGenerator.OPENAI;
     ContentGenerator.model := "gpt-4";
     ContentGenerator.apiKey := key;
     ContentGenerator.baseUrl := url;
     ContentGenerator.vertexai := None;
     ContentGenerator.authType := Some ContentGenerator.OPENAI_API_KEY;
     ContentGenerator.proxy := None;
     ContentGenerator.openaiConfig := oc |}.

(** Generator-level sampling parameters. *)
Definition tuning (t p : option Q) : ContentGenerator.OpenAIConfig :=
  {| ContentGenerator.organization := None;
     ContentGenerator.maxTokens := None;
     ContentGenerator.temperature := t;
     ContentGenerator.topP := p |}.

(** A request saying "Hello" with per-call sampling parameters. *)
Definition hello_request (cfg : option OpenAIClient.GenerateContentConfig)
  : OpenAIClient.GenerateContentParameters :=
  {| OpenAIClient.gp_model := "gpt-4";
     OpenAIClient.gp_contents :=
       OpenAIClient.ContentArray
         [ {| FormatMapper.role := Some "user"%string;
              FormatMapper.parts :=
                Some [ {| FormatMapper.text := Some "Hello"%string;
                          FormatMapper.inlineData := None |} ] |} ];
     OpenAIClient.gp_config := cfg |}.

(** The header of the object literal of [makeRequest] and
    [makeStreamRequest] under the name [h], if any. *)
Definition required_header (accept : bool) (key : option string) (h : string)
  : option string :=
  if decide (h = "Authorization"%string)
  then Some (String.append "Bearer " (OpenAIClient.interpolate key))
  else if decide (h = "Content-Type"%string) then Some "application/json"%string
  else if decide (h = "Accept"%string)
       then (if accept then Some "text/event-stream"%string else None)
       else None.

(** The body of a response as one text, and its lines that a newline
    ends. *)
Definition join_chunks (chunks : list string) : string :=
  fold_right String.append EmptyString chunks.

Definition complete_lines (text : string) : list string :=
  removelast (OpenAIClient.split_lines text).

(** The last line, which no newline has ended yet. *)
Definition unfinished_line (text : string) : string :=
  List.last (OpenAIClient.split_lines text) EmptyString.

(** The data-bearing frames among lines: the lines that start with
    [data: ] once trimmed. *)
Definition data_frames (lines : list string) : list string :=
  filter (fun t => JsString.startsWith t "data: " = true) (map JsString.trim lines).

(** The protocol on data-bearing frames: the payload [[DONE]] ends the
    stream, a payload that does not parse is skipped, any other is
    emitted. *)
Fixpoint for_frames (JSON_parse : string -> option Js.value)
    (frames : list string) : list Js.value * bool :=
  match frames with
  | [] => ([], false)
  | f :: rest =>
      let data := JsString.slice 6 f in
      if String.eqb data "[DONE]" then ([], true)
      else match JSON_parse data with
           | Some parsed =>
               let '(ys, returned) := for_frames JSON_parse rest in
               (parsed :: ys, returned)
           | None => for_frames JSON_parse rest
           end
  end.

(** What a consumer receives when the body holds the data-bearing
    frames [frames] and ends normally. *)
Definition decode_frames (JSON_parse : string -> option Js.value)
    (frames : list string) : OpenAIClient.Run FormatMapper.GenerateContentResponse :=
  OpenAIClient.convertStreamToGeminiFormat
    {| OpenAIClient.yielded := fst (for_frames JSON_parse frames);
       OpenAIClient.failure := None |}.

(** A frame that is not the end marker, whose payload parses, and for
    which the decoder emits the partial response [r]. *)
Definition emits (JSON_parse : string -> option Js.value) (f : string)
    (r : FormatMapper.GenerateContentResponse) : Prop :=
  JsString.slice 6 f <> "[DONE]"%string
  /\ exists chunk delta,
       JSON_parse (JsString.slice 6 f) = Some chunk
       /\ OpenAIClient.convert_chunk chunk = Js.Ok (Some (delta, r)).

Definition NL : string := String OpenAIClient.LF EmptyString.

(** The payload [{"choices":[{"delta":{"content":t},"index":0}]}], the
    frame that carries it, and the value it stands for. *)
Definition delta_payload (t : string) : string :=
  ("{" +:+ Json.q "choices" +:+ ":[{" +:+ Json.q "delta" +:+ ":{"
   +:+ Json.q "content" +:+ ":" +:+ Json.q t +:+ "}," +:+ Json.q "index"
   +:+ ":0}]}")%string.

Definition delta_frame (t : string) : string :=
  ("data: " +:+ delta_payload t)%string.

Definition delta_chunk (t : string) : Js.value :=
  Js.VObj [ ("choices"%string,
             Js.VArr [ Js.VObj [ ("delta"%string,
                                  Js.VObj [ ("content"%string, Js.VStr t) ]);
                                 ("index"%string, Js.VNum 0) ] ]) ].

Definition done_frame : string := "data: [DONE]".

(** The partial response that carries the text [t] and nothing else. *)
Definition partial_response (t : string) : FormatMapper.GenerateContentResponse :=
  {| FormatMapper.candidates :=
       [ candidate_of (Js.VStr t) Js.VUndefined (Js.VNum 0) ];
     FormatMapper.usageMetadata := None |}.

(** A network on which every [fetch] is rejected. *)
Definition offline (log : list OpenAIClient.HttpCall) (call : OpenAIClient.HttpCall)
  : Js.result OpenAIClient.HttpResponse :=
  Js.Throw (Js.Rejected "offline").

End Scenario.

(* ===================================================================== *)
(** ** modelConfig.ts, continued: model names                              *)
(* ===================================================================== *)

Module ModelNames.

Import JsString ModelConfig.

(** [getModel(modelKey)] of the manager: the value returned ([None] is
    [undefined], for a key that is not one of the four) and the manager
    afterwards. *)
Definition getModel (amb : Ambient) (m : ModelConfigManager) (modelKey : string)
  : option string * ModelConfigManager :=
  let m' := if isInitialized m then m else initialize amb m in
  (modelOverrides m' !! modelKey, m').

(** [getAllTokenLimits()]: a copy of the table. *)
Definition getAllTokenLimits (amb : Ambient) (m : ModelConfigManager)
  : gmap string Z * ModelConfigManager :=
  let m' := if isInitialized m then m else initialize amb m in
  (limits m', m').

(** [getModel(configKey, fallback)] of the module of model constants:
    [modelConfig.getModel(configKey) || fallback], and [fallback] when
    [require('./modelConfig.js')] throws. *)
Definition constant_getModel (loadable : bool) (amb : Ambient)
    (singleton : option ModelConfigManager) (configKey fallback : string)
  : string :=
  if loadable then
    match fst (getModel amb (getModelConfig singleton) configKey) with
    | Some s => if truthy s then s else fallback
    | None => fallback
    end
  else fallback.

(** The exported constant [DEFAULT_GEMINI_MODEL], computed with a
    configuration that nothing has used yet. *)
Definition DEFAULT_GEMINI_MODEL (loadable : bool) (amb : Ambient) : string :=
  constant_getModel loadable amb None "DEFAULT_GEMINI_MODEL" "gemini-2.5-pro".

(** An entry of [process.env] on which the second loop of
    [loadFromProcessEnv] writes nothing. *)
Definition is_ignored (kv : string * string) : bool :=
  negb (startsWith (fst kv) TOKEN_LIMIT_PREFIX)
  || negb (truthy (snd kv))
  || negb (bool_decide (is_Some (parseInt (snd kv)))).

(** An upper-case ASCII letter or an underscore. *)
Definition upper_or_underscore (c : ascii) : bool :=
  let n := nat_of_ascii c in
  ((65 <=? n) && (n <=? 90) || (n =? 95))%nat.

Fixpoint has_upper_or_underscore (s : string) : bool :=
  match s with
  | EmptyString => false
  | String c r => upper_or_underscore c || has_upper_or_underscore r
  end.

End ModelNames.

(* ===================================================================== *)
(** ** openaiClient.ts, continued: the Universal format and countTokens     *)
(* ===================================================================== *)

Module Universal.

Import Js FormatMapper OpenAIClient.

Record UniversalFunctionCall : Type := {
  fc_name : string;
  fc_arguments : string
}.

Record UniversalMessage : Type := {
  um_role : string;
  um_content : string;
  um_name : option string;
  um_functionCall : option UniversalFunctionCall
}.

(** An [OpenAIMessage] with all its fields. *)
Record OpenAIFullMessage : Type := {
  om_role : string;
  om_content : string;
  om_name : option string;
  om_function_call : option (string * string)      (* name, arguments *)
}.

(** [FormatMapper.universalToOpenAI]. *)
Definition universalToOpenAI (messages : list UniversalMessage)
  : list OpenAIFullMessage :=
  map (fun msg =>
         {| om_role := um_role msg;
            om_content := um_content msg;
            om_name := um_name msg;
            om_function_call :=
              match um_functionCall msg with
              | Some fc => Some (fc_name fc, fc_arguments fc)
              | None => None
              end |})
      messages.

Record UniversalTokenUsage : Type := {
  promptTokens : value;
  completionTokens : value;
  totalTokens : value
}.

(** [UniversalResponse]; a missing field is [VUndefined] or [None]. *)
Record UniversalResponse : Type := {
  u_content : value;
  u_finishReason : value;
  u_usage : option UniversalTokenUsage;
  u_functionCalls : option (list (value * value))  (* name, arguments *)
}.

(** [FormatMapper.openAIToUniversal], on the value that [makeRequest]
    returned.  [response.choices[0]] throws when the response or its
    [choices] is null or undefined. *)
Definition openAIToUniversal (response : value) : result UniversalResponse :=
  bind (get response "choices") (fun choices =>
  if nullish choices then Throw TypeError
  else
    let choice := at0 choices in
    let message := get_opt choice "message" in
    let function_call := get_opt message "function_call" in
    let usage := field response "usage" in
    Ok {| u_content := or (get_opt message "content") (VStr EmptyString);
          u_finishReason := get_opt choice "finish_reason";
          u_usage :=
            if truthy usage then
              Some {| promptTokens := field usage "prompt_tokens";
                      completionTokens := field usage "completion_tokens";
                      totalTokens := field usage "total_tokens" |}
            else None;
          u_functionCalls :=
            if truthy function_call then
              Some [ (field function_call "name", field function_call "arguments") ]
            else None |}).

(** The number of UTF-16 code units of a text given by its UTF-8 bytes:
    one for each byte that starts a character, and one more for each
    character of four bytes.  This is [text.length]. *)
Fixpoint js_length (s : string) : nat :=
  match s with
  | EmptyString => O
  | String c r =>
      let n := nat_of_ascii c in
      ((if (128 <=? n) && (n <? 192) then 0 else 1)
       + (if 240 <=? n then 1 else 0)
       + js_length r)%nat
  end.

(** [xs.join(sep)] for an array of strings. *)
Fixpoint join_sep (sep : string) (xs : list string) : string :=
  match xs with
  | [] => EmptyString
  | [x] => x
  | x :: rest => String.append x (String.append sep (join_sep sep rest))
  end.

(** The text that [countTokens] measures:
    [contents.map(c => c.parts?.map(p => p.text).join('') || '').join(' ')]. *)
Definition counted_text (contents : list Content) : string :=
  join_sep " "
    (map (fun content =>
            match parts content with
            | Some ps => join (map text ps)
            | None => EmptyString
            end)
         contents).

(** [Math.ceil(n / 4)] for a length [n]. *)
Definition ceil_quarter (n : nat) : Z := (Z.of_nat n + 3) / 4.

(** [countTokens(request)]: [totalTokens]. *)
Definition countTokens (contents : ContentListUnion) : Z :=
  ceil_quarter (js_length (counted_text (convertToContentArray contents))).

End Universal.

(* ===================================================================== *)
(** ** contentGenerator.ts: configuration and factory                      *)
(* ===================================================================== *)

Module Factory.

Import Js ContentGenerator OpenAIClient.

(** [process.env[name] || undefined]. *)
Definition env_var (env : list (string * string)) (name : string) : option string :=
  match ModelConfig.env_get env name with
  | Some v => if JsString.truthy v then Some v else None
  | None => None
  end.

Definition present (v : option string) : bool :=
  match v with Some _ => true | None => false end.

(** What [createContentGeneratorConfig] reads besides the environment:
    [config.getModel()], [config.getProxy()] and the constant
    [DEFAULT_GEMINI_MODEL]. *)
Record Settings : Type := {
  settings_model : string;
  settings_proxy : option string;
  default_model : string
}.

Definition base_config (s : Settings) (auth : option AuthType)
  : ContentGeneratorConfig :=
  {| provider := Some GEMINI;
     model := if JsString.truthy (settings_model s)
              then settings_model s else default_model s;
     apiKey := None; baseUrl := None; vertexai := None;
     authType := auth; proxy := settings_proxy s; openaiConfig := None |}.

Definition set_key (c : ContentGeneratorConfig) (key : option string)
    (vertex : bool) : ContentGeneratorConfig :=
  {| provider := provider c; model := model c; apiKey := key;
     baseUrl := baseUrl c; vertexai := Some vertex; authType := authType c;
     proxy := proxy c; openaiConfig := openaiConfig c |}.

Definition set_openai (c : ContentGeneratorConfig) (p : ProviderType)
    (key url : string) : ContentGeneratorConfig :=
  {| provider := Some p; model := model c; apiKey := Some key;
     baseUrl := Some url; vertexai := vertexai c; authType := authType c;
     proxy := proxy c; openaiConfig := openaiConfig c |}.

(** [createContentGeneratorConfig(config, authType)].  In the branch of
    the Gemini API key the source also starts [getEffectiveModel], an
    asynchronous check whose result it does not use. *)
Definition createContentGeneratorConfig (env : list (string * string))
    (s : Settings) (auth : option AuthType) : ContentGeneratorConfig :=
  let geminiApiKey := env_var env "GEMINI_API_KEY" in
  let googleApiKey := env_var env "GOOGLE_API_KEY" in
  let googleCloudProject := env_var env "GOOGLE_CLOUD_PROJECT" in
  let googleCloudLocation := env_var env "GOOGLE_CLOUD_LOCATION" in
  let openaiApiKey := env_var env "OPENAI_API_KEY" in
  let openaiBaseUrl := env_var env "OPENAI_BASE_URL" in
  let c := base_config s auth in
  match auth with
  | Some LOGIN_WITH_GOOGLE | Some CLOUD_SHELL => c
  | Some USE_GEMINI =>
      match geminiApiKey with
      | Some _ => set_key c geminiApiKey false
      | None => c
      end
  | Some USE_VERTEX_AI =>
      if present googleApiKey
         || (present googleCloudProject && present googleCloudLocation)
      then set_key c googleApiKey true
      else c
  | Some OPENAI_API_KEY =>
      match openaiApiKey with
      | Some key => set_openai c OPENAI key
                      (default OPENAI_DEFAULT_BASE_URL openaiBaseUrl)
      | None => c
      end
  | Some AUTH_OPENAI_COMPATIBLE =>
      match openaiApiKey, openaiBaseUrl with
      | Some key, Some url => set_openai c OPENAI_COMPATIBLE key url
      | _, _ => c
      end
  | None => c
  end.

(** The values of the two enumerations, as a template literal prints
    them. *)
Definition authType_text (a : option AuthType) : string :=
  match a with
  | Some LOGIN_WITH_GOOGLE => "oauth-personal"
  | Some USE_GEMINI => "gemini-api-key"
  | Some USE_VERTEX_AI => "vertex-ai"
  | Some CLOUD_SHELL => "cloud-shell"
  | Some OPENAI_API_KEY => "openai-api-key"
  | Some AUTH_OPENAI_COMPATIBLE => "openai-compatible"
  | None => "undefined"
  end.

Definition provider_text (p : option ProviderType) : string :=
  match p with
  | Some GEMINI => "gemini"
  | Some OPENAI => "openai"
  | Some OPENAI_COMPATIBLE => "openai-compatible"
  | None => "undefined"
  end.

(** What [createContentGenerator] constructs: the OpenAI generator
    itself, or the constructor of another module with the arguments it
    is called with. *)
Inductive Generator : Type :=
| OpenAIGenerator (g : OpenAIContentGenerator)
| CodeAssistGenerator (http_headers : gmap string string) (auth : AuthType)
| GoogleGenAIModels (key : option string) (vertex : option bool)
                    (http_headers : gmap string string).

(** [createContentGenerator(config, gcConfig, sessionId)]; [userAgent]
    is the text [GeminiCLI/<version> (<platform>; <arch>)]. *)
Definition createContentGenerator (userAgent : string)
    (config : ContentGeneratorConfig) : result Generator :=
  let http_headers : gmap string string := {[ "User-Agent"%string := userAgent ]} in
  if selects_openai config then
    bind (new_OpenAIContentGenerator config http_headers)
         (fun g => Ok (OpenAIGenerator g))
  else
    match authType config with
    | Some LOGIN_WITH_GOOGLE => Ok (CodeAssistGenerator http_headers LOGIN_WITH_GOOGLE)
    | Some CLOUD_SHELL => Ok (CodeAssistGenerator http_headers CLOUD_SHELL)
    | Some USE_GEMINI | Some USE_VERTEX_AI =>
        Ok (GoogleGenAIModels
              (match apiKey config with
               | Some EmptyString => None
               | k => k
               end)
              (vertexai config) http_headers)
    | _ =>
        Throw (Error
                 ("Error creating contentGenerator: Unsupported authType/provider: "
                  +:+ authType_text (authType config) +:+ "/"
                  +:+ provider_text (provider config)))
    end.

End Factory.

(** A network that answers every [fetch] with the same response. *)
Module Network.

Definition answering (response : OpenAIClient.HttpResponse)
    (log : list OpenAIClient.HttpCall) (call : OpenAIClient.HttpCall)
  : Js.result OpenAIClient.HttpResponse :=
  Js.Ok response.

End Network.

(* ===================================================================== *)
(** ** Token limits: the layered table and the resolver                    *)
(* ===================================================================== *)

Module TokenLimitFacts.

Import JsString ModelConfig TokenLimits Scenario.

(** *** What the regular expressions of [tokenLimit] test *)

Lemma strip_lower p : toLowerCase p = p ->
  forall s, strip true p s = None <-> strip false p (toLowerCase s) = None.
Proof.
  induction p as [|a p IH]; intros Hp s; [done|].
  simpl in Hp. injection Hp as Ha Hp'.
  destruct s as [|b s]; [done|]. simpl. rewrite Ha.
  destruct (Ascii.eqb a (lower_ascii b)); [by apply IH | done].
Qed.

Lemma strip_app ci p a : forall s,
  strip ci (String.append p a) s =
  match strip ci p s with Some r => strip ci a r | None => None end.
Proof.
  induction p as [|x p IH]; intros s; [reflexivity|].
  change (String.append (String x p) a) with (String x (String.append p a)).
  destruct s as [|b s]; simpl; [reflexivity|].
  destruct (char_eqb ci x b); [apply IH | reflexivity].
Qed.

Lemma test_ext ci r1 r2 :
  (forall s, Regex.matches_here ci r1 s = Regex.matches_here ci r2 s) ->
  forall s, Regex.test ci r1 s = Regex.test ci r2 s.
Proof.
  intros H s. induction s as [|c s IH]; simpl; [by rewrite H|].
  by rewrite H, IH.
Qed.

Lemma test_alt ci r1 r2 s :
  Regex.test ci (Regex.Alt r1 r2) s = Regex.test ci r1 s || Regex.test ci r2 s.
Proof.
  assert (Hhere : forall t, Regex.matches_here ci (Regex.Alt r1 r2) t =
                            Regex.matches_here ci r1 t || Regex.matches_here ci r2 t).
  { intros t. unfold Regex.matches_here. simpl.
    by destruct (Regex.matches ci r1 t), (Regex.matches ci r2 t). }
  induction s as [|c s IH]; simpl; rewrite Hhere.
  - by destruct (Regex.matches_here ci r1 EmptyString),
                (Regex.matches_here ci r2 EmptyString).
  - rewrite IH.
    destruct (Regex.matches_here ci r1 (String c s)),
             (Regex.matches_here ci r2 (String c s)),
             (Regex.test ci r1 s), (Regex.test ci r2 s); reflexivity.
Qed.

Lemma test_seq_opt ci r1 r2 s :
  Regex.test ci (Regex.Seq r1 (Regex.Opt r2)) s = Regex.test ci r1 s.
Proof.
  apply test_ext. intros t. unfold Regex.matches_here. simpl.
  destruct (Regex.matches ci r1 t) as [|x xs]; [reflexivity|]. simpl.
  by destruct (Regex.matches ci r2 x).
Qed.

Lemma test_lit_alt ci p a b s :
  Regex.test ci (Regex.Seq (Regex.Lit p) (Regex.Alt (Regex.Lit a) (Regex.Lit b))) s =
  Regex.test ci (Regex.Lit (String.append p a)) s
  || Regex.test ci (Regex.Lit (String.append p b)) s.
Proof.
  rewrite <- test_alt. apply test_ext. intros t.
  unfold Regex.matches_here. simpl. rewrite !strip_app.
  destruct (strip ci p t) as [r|]; [|reflexivity]. simpl.
  rewrite app_nil_r. reflexivity.
Qed.

Lemma test_lit p s : toLowerCase p = p ->
  Regex.test true (Regex.Lit p) s = contains_ci s p.
Proof.
  intros Hp. unfold contains_ci.
  assert (Hhere : forall t, Regex.matches_here true (Regex.Lit p) t =
                            startsWith (toLowerCase t) p).
  { intros t. unfold Regex.matches_here, startsWith. simpl.
    pose proof (strip_lower p Hp t) as [H1 H2].
    destruct (strip true p t), (strip false p (toLowerCase t)); try reflexivity.
    - specialize (H2 eq_refl). discriminate.
    - specialize (H1 eq_refl). discriminate. }
  induction s as [|c s IH]; simpl; rewrite Hhere; [reflexivity|].
  by rewrite IH.
Qed.

(** The chain of regular expressions computes the rules of the
    specification. *)
Lemma regex_limit_families model : regex_limit model = family_limit model.
Proof.
  unfold regex_limit, family_limit, re_gpt4, re_claude, re_llama3, re_mini_lite.
  rewrite test_seq_opt, test_lit_alt, test_alt.
  change (String.append "claude-" "3") with "claude-3"%string.
  change (String.append "claude-" "4") with "claude-4"%string.
  by rewrite !test_lit.
Qed.

(** *** The layered table *)

Lemma env_step_other name tl kv :
  is_override name kv = false -> env_step tl kv !! name = tl !! name.
Proof.
  destruct kv as [key value]. unfold is_override, env_step. simpl.
  destruct (startsWith key TOKEN_LIMIT_PREFIX); simpl; [|done].
  destruct (truthy value); simpl; [|done].
  destruct (parseInt value) as [n|]; simpl; [|done].
  intros Hne. apply String.eqb_neq in Hne.
  by rewrite lookup_insert_ne.
Qed.

Lemma env_step_override name tl key value v :
  startsWith key TOKEN_LIMIT_PREFIX = true ->
  truthy value = true ->
  parseInt value = Some v ->
  env_model_name key = name ->
  env_step tl (key, value) !! name = Some v.
Proof.
  intros Hp Ht Hv <-. unfold env_step. rewrite Hp, Ht, Hv. simpl.
  apply lookup_insert_eq.
Qed.

Lemma fold_env_step_other name env :
  forall tl, forallb (fun kv => negb (is_override name kv)) env = true ->
             fold_left env_step env tl !! name = tl !! name.
Proof.
  induction env as [|kv env IH]; intros tl H; simpl in *; [done|].
  apply andb_true_iff in H as [Hkv Henv].
  rewrite IH by done. apply env_step_other.
  by apply negb_true_iff.
Qed.

(** The last override of a name in the environment decides its entry,
    whatever the table held before. *)
Lemma fold_env_step_last name pre key value post v tl :
  startsWith key TOKEN_LIMIT_PREFIX = true ->
  truthy value = true ->
  parseInt value = Some v ->
  env_model_name key = name ->
  forallb (fun kv => negb (is_override name kv)) post = true ->
  fold_left env_step (pre ++ (key, value) :: post) tl !! name = Some v.
Proof.
  intros Hp Ht Hv Hn Hpost.
  rewrite fold_left_app. simpl.
  rewrite fold_env_step_other by done.
  by apply env_step_override.
Qed.

(** Without an override in the environment the entry is the one of
    models.json, and without that the built-in one. *)
Lemma limits_without_override amb name :
  forallb (fun kv => negb (is_override name kv)) (process_env amb) = true ->
  limits (initialize amb new_manager) !! name =
    match models_json amb with
    | Parsed {| tokenLimits := Some tl |} =>
        match tl !! name with
        | Some n => Some n
        | None => DEFAULT_TOKEN_LIMITS !! name
        end
    | _ => DEFAULT_TOKEN_LIMITS !! name
    end.
Proof.
  intros H. unfold initialize, loadFromProcessEnv, loadFromJson. simpl.
  rewrite fold_env_step_other by done.
  destruct (models_json amb) as [| |[ms [tl|]]]; simpl; try done.
  - destruct ms; simpl; unfold spread; rewrite lookup_union;
      destruct (tl !! name), (DEFAULT_TOKEN_LIMITS !! name); done.
  - destruct ms; done.
Qed.

Lemma getTokenLimit_entry amb m name n :
  limits (initialize amb m) !! name = Some n -> n <> 0 ->
  fst (getTokenLimit amb m name) = n.
Proof.
  intros Hn Hz. unfold getTokenLimit.
  replace (if isInitialized m then m else initialize amb m)
    with (initialize amb m) by (unfold initialize; by destruct (isInitialized m)).
  rewrite Hn. destruct (Z.eqb_spec n 0); [done|]. done.
Qed.

Lemma getTokenLimit_fallback amb m name :
  limits (initialize amb m) !! name = None \/
  limits (initialize amb m) !! name = Some 0 ->
  fst (getTokenLimit amb m name) = pattern_limit name.
Proof.
  intros H. unfold getTokenLimit.
  replace (if isInitialized m then m else initialize amb m)
    with (initialize amb m) by (unfold initialize; by destruct (isInitialized m)).
  by destruct H as [-> | ->].
Qed.

Lemma pattern_limit_values name :
  pattern_limit name = 128000 \/ pattern_limit name = 16384 \/
  pattern_limit name = 1048576.
Proof.
  unfold pattern_limit.
  destruct (includes name "gpt-4" || includes name "claude-3"); [by left|].
  destruct (includes name "gpt-3.5" || includes name "mini" || includes name "lite");
    [right; by left | right; by right].
Qed.

(** When modelConfig.js loads, the resolver never reaches its regular
    expressions: outside the names of the [switch] it answers what
    [getTokenLimit] answers. *)
Lemma tokenLimit_loadable amb singleton model :
  builtin_limit model = None ->
  fst (tokenLimit true amb singleton model) =
  fst (getTokenLimit amb (getModelConfig singleton) model).
Proof.
  intros Hb. unfold tokenLimit, modelConfig_getTokenLimit. rewrite Hb.
  by destruct (getTokenLimit amb (getModelConfig singleton) model).
Qed.

(** When it does not load, the regular expressions decide, and give the
    rules of the specification. *)
Lemma tokenLimit_not_loadable amb singleton model :
  builtin_limit model = None ->
  fst (tokenLimit false amb singleton model) = family_limit model.
Proof.
  intros Hb. unfold tokenLimit. rewrite Hb. apply regex_limit_families.
Qed.








(** C4 (the claim as stated fails).  With MODEL_TOKEN_LIMIT_GPT_4_CUSTOM=0
    in the environment the name "gpt-4-custom" has an override, of value
    0, and resolves to 128000; and with "gemini-1.5-pro": 1000 in
    models.json the table holds 1000 for that name while [tokenLimit]
    answers 2097152 from its [switch]. *)
Lemma override_not_returned :
  (is_override "gpt-4-custom" ("MODEL_TOKEN_LIMIT_GPT_4_CUSTOM", "0")%string = true
   /\ parseInt "0" = Some 0
   /\ limits (initialize (with_env [("MODEL_TOKEN_LIMIT_GPT_4_CUSTOM", "0")%string])
                         new_manager) !! "gpt-4-custom"%string = Some 0
   /\ fst (getTokenLimit (with_env [("MODEL_TOKEN_LIMIT_GPT_4_CUSTOM", "0")%string])
                         new_manager "gpt-4-custom") = 128000
   /\ fst (tokenLimit true (with_env [("MODEL_TOKEN_LIMIT_GPT_4_CUSTOM", "0")%string])
                      None "gpt-4-custom") = 128000)
  /\ (limits (initialize (with_file_limits [("gemini-1.5-pro"%string, 1000)])
                         new_manager) !! "gemini-1.5-pro"%string = Some 1000
      /\ fst (tokenLimit true (with_file_limits [("gemini-1.5-pro"%string, 1000)])
                         None "gemini-1.5-pro") = 2097152).
Proof. vm_compute. repeat split; reflexivity. Qed.

(** C4 (amended).  The last entry of the environment that sets the limit
    of a name decides the entry of the table for that name, whatever
    models.json and the defaults hold for it; and when that value is not
    zero, [getTokenLimit] returns it, before any pattern is tried, and
    so does [tokenLimit] for a name that its [switch] does not answer. *)
Theorem env_override_wins amb pre key value post v name :
  process_env amb = pre ++ (key, value) :: post ->
  startsWith key TOKEN_LIMIT_PREFIX = true ->
  truthy value = true ->
  parseInt value = Some v ->
  env_model_name key = name ->
  forallb (fun kv => negb (is_override name kv)) post = true ->
  limits (initialize amb new_manager) !! name = Some v
  /\ (v <> 0 ->
      fst (getTokenLimit amb new_manager name) = v
      /\ (builtin_limit name = None -> fst (tokenLimit true amb None name) = v)).
Proof.
  intros Henv Hp Ht Hv Hn Hpost.
  assert (Hentry : limits (initialize amb new_manager) !! name = Some v).
  { unfold initialize, loadFromProcessEnv. simpl. rewrite Henv.
    by apply fold_env_step_last. }
  split; [done|]. intros Hz.
  assert (Hget : fst (getTokenLimit amb new_manager name) = v)
    by by apply getTokenLimit_entry.
  split; [done|]. intros Hb.
  by rewrite tokenLimit_loadable.
Qed.

Lemma env_override_wins_witness :
  let amb := with_env [("MODEL_TOKEN_LIMIT_GPT_4_CUSTOM", "64000")%string] in
  includes "gpt-4-custom" "gpt-4" = true
  /\ limits (initialize amb new_manager) !! "gpt-4-custom"%string = Some 64000
  /\ fst (getTokenLimit amb new_manager "gpt-4-custom") = 64000
  /\ fst (tokenLimit true amb None "gpt-4-custom") = 64000.
Proof.
  intros amb.
  destruct (env_override_wins amb [] "MODEL_TOKEN_LIMIT_GPT_4_CUSTOM" "64000" []
              64000 "gpt-4-custom" eq_refl eq_refl eq_refl eq_refl eq_refl eq_refl)
    as [Hentry Hrest].
  destruct (Hrest ltac:(lia)) as [Hget Htl].
  split; [reflexivity|]. split; [exact Hentry|]. split; [exact Hget|].
  apply Htl. reflexivity.
Defined.

(** C10.  When the entry of a name in the table is 0, [getTokenLimit]
    takes it for missing: it returns what the patterns and the global
    default give, which is never 0. *)
Theorem zero_entry_ignored amb m name :
  limits (initialize amb m) !! name = Some 0 ->
  fst (getTokenLimit amb m name) = pattern_limit name
  /\ fst (getTokenLimit amb m name) <> 0.
Proof.
  intros H0.
  assert (Hf : fst (getTokenLimit amb m name) = pattern_limit name)
    by (apply getTokenLimit_fallback; by right).
  split; [done|]. rewrite Hf.
  destruct (pattern_limit_values name) as [-> | [-> | ->]]; lia.
Qed.

(** The zero entry is reachable: MODEL_TOKEN_LIMIT_X=0. *)
Lemma zero_entry_ignored_witness :
  limits (initialize (with_env [("MODEL_TOKEN_LIMIT_X", "0")%string]) new_manager)
    !! "x"%string = Some 0
  /\ fst (getTokenLimit (with_env [("MODEL_TOKEN_LIMIT_X", "0")%string])
                        new_manager "x") = pattern_limit "x"
  /\ fst (getTokenLimit (with_env [("MODEL_TOKEN_LIMIT_X", "0")%string])
                        new_manager "x") <> 0.
Proof.
  split; [vm_compute; reflexivity|].
  apply (zero_entry_ignored (with_env [("MODEL_TOKEN_LIMIT_X", "0")%string])
           new_manager "x").
  vm_compute; reflexivity.
Defined.

End TokenLimitFacts.

(* ===================================================================== *)
(** ** FormatMapper                                                        *)
(* ===================================================================== *)

Module FormatMapperFacts.

Import Js FormatMapper Scenario.

Lemma join_text_parts ps :
  join (map text (filter (fun part => has_text part = true) ps)) = text_of_parts ps.
Proof.
  induction ps as [|p ps IH]; [reflexivity|].
  rewrite filter_cons.
  destruct (decide (has_text p = true)) as [H|H]; unfold has_text in H; simpl.
  - destruct (text p) as [s|]; [|discriminate]. simpl. by rewrite IH.
  - destruct (text p) as [[|c s]|]; simpl; [exact IH | done | exact IH].
Qed.

Lemma geminiToOpenAI_content c :
  map msg_content (geminiToOpenAI [c]) = [flattened_text c].
Proof.
  unfold flattened_text. simpl. f_equal.
  destruct (parts c) as [ps|]; simpl; [apply join_text_parts | reflexivity].
Qed.

Lemma roundtrip_one c :
  role c <> Some "assistant"%string ->
  openAIToGemini (geminiToOpenAI [c]) =
  [ {| role := role c;
       parts := Some [ {| text := Some (flattened_text c); inlineData := None |} ] |} ].
Proof.
  intros Hrole. unfold flattened_text. simpl. f_equal. f_equal.
  - destruct (decide (role c = Some "model"%string)) as [Hm|Hm]; simpl.
    + by rewrite Hm.
    + by rewrite decide_False.
  - do 4 f_equal.
    destruct (parts c) as [ps|]; simpl; [apply join_text_parts | reflexivity].
Qed.

Lemma append_empty_r (s : string) : String.append s EmptyString = s.
Proof.
  induction s as [|c s IH]; [reflexivity|].
  change (String c (String.append s EmptyString) = String c s). by rewrite IH.
Qed.

Lemma flattened_text_flatten c : flattened_text (flatten c) = flattened_text c.
Proof. unfold flatten, flattened_text at 1. simpl. apply append_empty_r. Qed.

Lemma roundtrip_flatten contents :
  Forall (fun c => role c <> Some "assistant"%string) contents ->
  openAIToGemini (geminiToOpenAI contents) = map flatten contents.
Proof.
  induction 1 as [|c cs Hc _ IH]; [reflexivity|].
  change (geminiToOpenAI (c :: cs)) with (geminiToOpenAI [c] ++ geminiToOpenAI cs).
  unfold openAIToGemini in *. rewrite map_app, IH.
  pose proof (roundtrip_one c Hc) as H1. unfold openAIToGemini in H1.
  by rewrite H1.
Qed.

(** C9.  [geminiToOpenAI] and then [openAIToGemini], on Native contents
    (none has the role "assistant", which is not a Native role):
    the list keeps its length, every role comes back, [model] having
    been "assistant" in between, and every element comes back as one
    part whose text is the concatenation of the text-bearing parts of
    the original, so that the flattened text is the same. *)
Theorem gemini_openai_roundtrip (contents : list Content) :
  Forall (fun c => role c <> Some "assistant"%string) contents ->
  let messages := geminiToOpenAI contents in
  let back := openAIToGemini messages in
  length back = length contents
  /\ map role back = map role contents
  /\ map msg_role messages =
       map (fun c => if decide (role c = Some "model"%string)
                     then Some "assistant"%string else role c) contents
  /\ map parts back =
       map (fun c => Some [ {| text := Some (flattened_text c);
                               inlineData := None |} ]) contents
  /\ map flattened_text back = map flattened_text contents.
Proof.
  intros Hnative. simpl. rewrite (roundtrip_flatten _ Hnative).
  rewrite length_map, !map_map. simpl.
  repeat split; try reflexivity.
  - unfold geminiToOpenAI. by rewrite map_map.
  - apply map_ext. intros c. apply flattened_text_flatten.
Qed.

Lemma gemini_openai_roundtrip_witness :
  let contents :=
    [ {| role := Some "user"%string;
         parts := Some [ {| text := Some "Hello, "%string; inlineData := None |};
                         {| text := None; inlineData := Some "png"%string |};
                         {| text := Some "how are you?"%string; inlineData := None |} ] |};
      {| role := Some "model"%string;
         parts := Some [ {| text := Some "I am well"%string; inlineData := None |} ] |} ] in
  Forall (fun c => role c <> Some "assistant"%string) contents
  /\ map msg_role (geminiToOpenAI contents) = [Some "user"; Some "assistant"]%string
  /\ map role (openAIToGemini (geminiToOpenAI contents)) = [Some "user"; Some "model"]%string
  /\ map flattened_text (openAIToGemini (geminiToOpenAI contents)) =
       ["Hello, how are you?"; "I am well"]%string.
Proof.
  intros contents.
  assert (Hnative : Forall (fun c => role c <> Some "assistant"%string) contents)
    by (repeat constructor; discriminate).
  destruct (gemini_openai_roundtrip contents Hnative) as (_ & Hroles & Hmid & _ & Htext).
  split; [exact Hnative|]. split; [exact Hmid|]. split; [exact Hroles|]. exact Htext.
Defined.

End FormatMapperFacts.

Module ResponseFacts.

Import Js FormatMapper Scenario.

Lemma field_is_object v k s : field v k = VStr s -> exists fields, v = VObj fields.
Proof. destruct v; simpl; try discriminate. eauto. Qed.

Lemma or_text s : or (VStr s) (VStr EmptyString) = VStr s.
Proof. by destruct s. Qed.

(** C2 (the claim as stated fails).  Both legacy envelopes around
    [{role: 'assistant', content: 'hi'}], which carry neither a finish
    reason nor an index, give a candidate whose finish reason is the
    string "stop", not "STOP". *)
Lemma legacy_finish_reason_is_lowercase :
  openAIResponseToGemini (legacy_array_envelope (assistant_message "hi")) =
    Ok {| candidates := [ candidate_of (VStr "hi") (VStr "stop") (VNum 0) ];
          usageMetadata := None |}
  /\ openAIResponseToGemini (legacy_single_envelope (assistant_message "hi")) =
       Ok {| candidates := [ candidate_of (VStr "hi") (VStr "stop") (VNum 0) ];
             usageMetadata := None |}
  /\ VStr "stop" <> VStr "STOP".
Proof. split; [reflexivity | split; [reflexivity | discriminate]]. Qed.

(** C2 (amended).  A message whose [content] is the text [s] gives one
    candidate carrying [s] and the index 0 from each of the three
    envelopes, when they omit finish reason and index; the finish
    reason is "STOP" from the standard envelope and "stop" from the two
    legacy ones. *)
Theorem response_shapes_normalized (response msg : value) (s : string) :
  field msg "content" = VStr s ->
  (forall choice,
      at0 (field response "choices") = choice ->
      field choice "message" = msg ->
      field choice "finish_reason" = VUndefined ->
      field choice "index" = VUndefined ->
      exists r, openAIResponseToGemini response = Ok r
                /\ candidates r = [ candidate_of (VStr s) (VStr "STOP") (VNum 0) ])
  /\ (forall rest,
        truthy (field response "choices")
          && truthy (at0 (field response "choices")) = false ->
        field response "message" = VArr (msg :: rest) ->
        exists r, openAIResponseToGemini response = Ok r
                  /\ candidates r = [ candidate_of (VStr s) (VStr "stop") (VNum 0) ])
  /\ (truthy (field response "choices")
        && truthy (at0 (field response "choices")) = false ->
      field response "message" = msg ->
      exists r, openAIResponseToGemini response = Ok r
                /\ candidates r = [ candidate_of (VStr s) (VStr "stop") (VNum 0) ]).
Proof.
  intros Hs. destruct (field_is_object _ _ _ Hs) as [mfields ->].
  split; [|split].
  - intros choice H0 Hm Hf Hi.
    assert (Hc : truthy choice = true) by (by destruct choice).
    assert (Hch : truthy (field response "choices") = true).
    { destruct choice; try discriminate.
      by destruct (field response "choices") as [| | | | [|]| |]. }
    assert (Hresp : nullish response = false) by (by destruct response).
    unfold openAIResponseToGemini, get. rewrite Hresp. simpl.
    rewrite Hch, H0, Hc. simpl.
    assert (Hcn : nullish choice = false) by (by destruct choice).
    unfold get_opt at 1 2 3 4. rewrite Hcn, Hm, Hf, Hi. simpl.
    unfold get_opt. simpl. simpl in Hs. rewrite Hs, or_text.
    eexists. split; reflexivity.
  - intros rest Hno Hmsg.
    assert (Hresp : nullish response = false) by (by destruct response).
    unfold openAIResponseToGemini, get. rewrite Hresp. simpl.
    rewrite Hno, Hmsg. simpl. simpl in Hs. rewrite Hs, or_text.
    eexists. split; reflexivity.
  - intros Hno Hmsg.
    assert (Hresp : nullish response = false) by (by destruct response).
    unfold openAIResponseToGemini, get. rewrite Hresp. simpl.
    rewrite Hno, Hmsg. simpl. simpl in Hs. rewrite Hs, or_text.
    eexists. split; reflexivity.
Qed.

Lemma response_shapes_normalized_witness :
  field (assistant_message "hi") "content" = VStr "hi"
  /\ (exists r, openAIResponseToGemini (standard_envelope (assistant_message "hi")) = Ok r
                /\ candidates r = [ candidate_of (VStr "hi") (VStr "STOP") (VNum 0) ])
  /\ (exists r, openAIResponseToGemini (legacy_array_envelope (assistant_message "hi")) = Ok r
                /\ candidates r = [ candidate_of (VStr "hi") (VStr "stop") (VNum 0) ])
  /\ (exists r, openAIResponseToGemini (legacy_single_envelope (assistant_message "hi")) = Ok r
                /\ candidates r = [ candidate_of (VStr "hi") (VStr "stop") (VNum 0) ]).
Proof.
  split; [reflexivity|]. split; [|split].
  - apply (proj1 (response_shapes_normalized
                    (standard_envelope (assistant_message "hi"))
                    (assistant_message "hi") "hi" eq_refl)
             (VObj [ ("message"%string, assistant_message "hi") ]));
      reflexivity.
  - apply (proj1 (proj2 (response_shapes_normalized
                           (legacy_array_envelope (assistant_message "hi"))
                           (assistant_message "hi") "hi" eq_refl)) []);
      reflexivity.
  - apply (proj2 (proj2 (response_shapes_normalized
                           (legacy_single_envelope (assistant_message "hi"))
                           (assistant_message "hi") "hi" eq_refl)));
      reflexivity.
Defined.

End ResponseFacts.

(* ===================================================================== *)
(** ** OpenAIContentGenerator: construction and requests                   *)
(* ===================================================================== *)

Module GeneratorFacts.

Import Js FormatMapper ContentGenerator OpenAIClient Scenario.

Lemma makeRequest_call fetch g endpoint body log :
  snd (makeRequest fetch g endpoint body log) =
  log ++ [ {| url := endpoint_url g endpoint; method := "POST";
              headers := request_headers false g; body := body |} ].
Proof.
  unfold makeRequest.
  destruct (fetch log _) as [response|e]; [|reflexivity].
  by destruct (negb (ok response)).
Qed.

Lemma makeStreamRequest_call fetch JSON_parse g endpoint body log :
  snd (makeStreamRequest fetch JSON_parse g endpoint body log) =
  log ++ [ {| url := endpoint_url g endpoint; method := "POST";
              headers := request_headers true g; body := with_stream body |} ].
Proof.
  unfold makeStreamRequest.
  destruct (fetch log _) as [response|e]; [|reflexivity].
  destruct (negb (ok response)); [reflexivity|].
  by destruct (reader response).
Qed.

Lemma request_headers_lookup accept g h :
  request_headers accept g !! h =
  let merged :=
    match httpOptions g !! h with
    | Some v => Some v
    | None => required_header accept (apiKey (config g)) h
    end in
  match organization_of g with
  | Some org => if decide (h = "OpenAI-Organization"%string) then Some org else merged
  | None => merged
  end.
Proof.
  assert (Hmerged :
    forall lit : gmap string string,
      ModelConfig.spread lit (httpOptions g) !! h =
      match httpOptions g !! h with Some v => Some v | None => lit !! h end).
  { intros lit. unfold ModelConfig.spread. rewrite lookup_union.
    destruct (httpOptions g !! h), (lit !! h); reflexivity. }
  assert (Hlit :
    (if accept
     then <["Accept"%string := "text/event-stream"%string]>
            (<["Authorization"%string :=
                 String.append "Bearer " (interpolate (apiKey (config g)))]>
               ({[ "Content-Type"%string := "application/json"%string ]} : gmap string string))
     else <["Authorization"%string :=
              String.append "Bearer " (interpolate (apiKey (config g)))]>
            ({[ "Content-Type"%string := "application/json"%string ]})) !! h
    = required_header accept (apiKey (config g)) h).
  { unfold required_header.
    destruct accept;
      repeat (rewrite lookup_insert; case_decide; subst; simpl; try done);
      rewrite ?lookup_singleton, ?lookup_empty; repeat case_decide; subst; try done. }
  unfold request_headers. simpl.
  destruct (organization_of g) as [org|].
  - rewrite lookup_insert.
    destruct (decide ("OpenAI-Organization"%string = h)) as [<-|Hne].
    + by rewrite decide_True.
    + rewrite decide_False by congruence. by rewrite Hmerged, Hlit.
  - by rewrite Hmerged, Hlit.
Qed.

(** C6 (the claim as stated fails).  With the API key "sk-test" and the
    caller header Authorization: "Basic abc", the request of
    [makeRequest] and the one of [makeStreamRequest] carry
    Authorization: "Basic abc". *)
Lemma caller_overrides_authorization :
  let g := {| config := openai_config (Some "sk-test"%string) None None;
              httpOptions := {[ "Authorization"%string := "Basic abc"%string ]} |} in
  map (fun call => headers call !! "Authorization"%string)
      (snd (makeRequest offline g "/chat/completions"
              (openAIRequest_of g (hello_request None)) []))
    = [ Some "Basic abc"%string ]
  /\ map (fun call => headers call !! "Authorization"%string)
         (snd (makeStreamRequest offline Json.parse g "/chat/completions"
                 (openAIRequest_of g (hello_request None)) []))
       = [ Some "Basic abc"%string ]
  /\ Some "Basic abc"%string <> Some "Bearer sk-test"%string.
Proof.
  split; [vm_compute; reflexivity|].
  split; [vm_compute; reflexivity | discriminate].
Qed.

(** C6 (amended).  Each request makes one call, whose headers are the
    provider-required ones (Content-Type, Authorization with the bearer
    token, Accept on a stream) with the caller's headers spread over
    them, and then the organization when one is configured, and no
    other header.  So a header of the caller is sent as the caller gave
    it, unless it is the organization header of a generator that has an
    organization; the organization sent is the configured one;
    Authorization is "Bearer " followed by the API key and Content-Type
    is "application/json" whenever the caller gives no such header; a
    name that the caller does not give and that is none of the four is
    not sent, nor is the organization header without a configured
    organization; and when the caller gives no Accept header, the
    stream request carries Accept: "text/event-stream" and the plain
    request carries no Accept header. *)
Theorem headers_sent fetch JSON_parse g key endpoint body log :
  apiKey (config g) = Some key ->
  exists call scall,
    snd (makeRequest fetch g endpoint body log) = log ++ [call]
    /\ snd (makeStreamRequest fetch JSON_parse g endpoint body log) = log ++ [scall]
    /\ (forall hs, hs = headers call \/ hs = headers scall ->
         (forall h v, httpOptions g !! h = Some v ->
                      h <> "OpenAI-Organization"%string \/ organization_of g = None ->
                      hs !! h = Some v)
         /\ (forall org, organization_of g = Some org ->
                         hs !! "OpenAI-Organization"%string = Some org)
         /\ (httpOptions g !! "Authorization"%string = None ->
             hs !! "Authorization"%string = Some (String.append "Bearer " key))
         /\ (httpOptions g !! "Content-Type"%string = None ->
             hs !! "Content-Type"%string = Some "application/json"%string)
         /\ (forall h, httpOptions g !! h = None ->
                       h <> "Authorization"%string ->
                       h <> "Content-Type"%string ->
                       h <> "Accept"%string ->
                       h <> "OpenAI-Organization"%string \/ organization_of g = None ->
                       hs !! h = None))
    /\ (httpOptions g !! "Accept"%string = None ->
        headers call !! "Accept"%string = None
        /\ headers scall !! "Accept"%string = Some "text/event-stream"%string).
Proof.
  intros Hkey. eexists _, _.
  split; [apply makeRequest_call|]. split; [apply makeStreamRequest_call|].
  cbn [headers]. split.
  - intros hs Hhs.
    assert (Hl : exists accept, forall h, hs !! h =
              let merged :=
                match httpOptions g !! h with
                | Some v => Some v
                | None => required_header accept (apiKey (config g)) h
                end in
              match organization_of g with
              | Some org =>
                  if decide (h = "OpenAI-Organization"%string) then Some org else merged
              | None => merged
              end).
    { destruct Hhs as [-> | ->]; [exists false | exists true];
        intros h; apply request_headers_lookup. }
    destruct Hl as [accept Hl]. simpl in Hl. rewrite Hkey in Hl.
    repeat split.
    + intros h v Hv Hcase. rewrite Hl, Hv.
      destruct (organization_of g) as [org|]; [|done].
      destruct Hcase as [Hne|]; [|done]. by rewrite decide_False.
    + intros org Horg. rewrite Hl, Horg. by rewrite decide_True.
    + intros Hnone. rewrite Hl, Hnone.
      destruct (organization_of g); reflexivity.
    + intros Hnone. rewrite Hl, Hnone.
      destruct (organization_of g); reflexivity.
    + intros h Hnone Hauth Hct Hacc Hcase. rewrite Hl, Hnone.
      assert (Hreq : required_header accept (Some key) h = None).
      { unfold required_header. by rewrite !decide_False. }
      rewrite Hreq.
      destruct (organization_of g) as [org|]; [|done].
      destruct Hcase as [Hne|]; [|done]. by rewrite decide_False.
  - intros Hnone. rewrite !request_headers_lookup. simpl. rewrite Hnone.
    destruct (organization_of g); split; reflexivity.
Qed.

Lemma headers_sent_witness :
  let g := {| config := openai_config (Some "sk-test"%string) None None;
              httpOptions := {[ "User-Agent"%string := "GeminiCLI"%string ]} |} in
  apiKey (config g) = Some "sk-test"%string
  /\ exists call scall,
       snd (makeRequest offline g "/chat/completions"
              (openAIRequest_of g (hello_request None)) []) = [call]
       /\ snd (makeStreamRequest offline Json.parse g "/chat/completions"
                 (openAIRequest_of g (hello_request None)) []) = [scall]
       /\ headers call !! "Authorization"%string = Some "Bearer sk-test"%string
       /\ headers call !! "User-Agent"%string = Some "GeminiCLI"%string
       /\ headers call !! "OpenAI-Organization"%string = None
       /\ headers call !! "Accept"%string = None
       /\ headers scall !! "Accept"%string = Some "text/event-stream"%string.
Proof.
  intros g. split; [reflexivity|].
  destruct (headers_sent offline Json.parse g "sk-test" "/chat/completions"
              (openAIRequest_of g (hello_request None)) [] eq_refl)
    as (call & scall & Hcall & Hscall & Hhs & Haccept).
  exists call, scall. split; [exact Hcall|]. split; [exact Hscall|].
  destruct (Hhs (headers call) (or_introl eq_refl))
    as (Hcaller & _ & Hauth & _ & Hother).
  split; [apply Hauth; vm_compute; reflexivity|].
  split; [apply Hcaller; [vm_compute; reflexivity | right; reflexivity]|].
  split; [apply Hother; try discriminate; [vm_compute; reflexivity
                                          | right; reflexivity]|].
  apply Haccept. vm_compute. reflexivity.
Defined.

(** [a || b] keeps a per-call value that is not zero, and passes an
    unset pair through as unset. *)
Lemma num_or_nonzero q b : Qeq_bool q 0 = false -> num_or (Some q) b = Some q.
Proof. intros H. unfold num_or. by rewrite H. Qed.

Lemma num_or_unset b : num_or None b = b.
Proof. reflexivity. Qed.

Lemma request_tuning_nonzero g request c t p :
  gp_config request = Some c ->
  cfg_temperature c = Some t -> Qeq_bool t 0 = false ->
  cfg_topP c = Some p -> Qeq_bool p 0 = false ->
  req_temperature (openAIRequest_of g request) = Some t
  /\ top_p (openAIRequest_of g request) = Some p.
Proof.
  intros Hc Ht Htz Hp Hpz. unfold openAIRequest_of. simpl.
  rewrite Hc. simpl. rewrite Ht, Hp. by rewrite !num_or_nonzero.
Qed.

Lemma request_tuning_unset g request :
  gp_config request = None -> openaiConfig (config g) = None ->
  req_temperature (openAIRequest_of g request) = None
  /\ top_p (openAIRequest_of g request) = None.
Proof.
  intros Hc Ho. unfold openAIRequest_of. simpl. by rewrite Hc, Ho.
Qed.

(** C7 (evaluation of the code where it departs from the claim).  With
    the per-call values temperature = 0 and topP = 0 and the configured
    values 7/10 and 9/10, the request carries 7/10 and 9/10; and when
    nothing is configured it carries no temperature and no top_p. *)
Theorem per_call_zero_is_dropped :
  let zero := Some {| cfg_temperature := Some 0%Q; cfg_topP := Some 0%Q |} in
  let configured :=
    {| config := openai_config (Some "sk-test"%string) None
                   (Some (tuning (Some (7 # 10)%Q) (Some (9 # 10)%Q)));
       httpOptions := ∅ |} in
  let unconfigured :=
    {| config := openai_config (Some "sk-test"%string) None None;
       httpOptions := ∅ |} in
  req_temperature (openAIRequest_of configured (hello_request zero)) = Some (7 # 10)%Q
  /\ top_p (openAIRequest_of configured (hello_request zero)) = Some (9 # 10)%Q
  /\ req_temperature (openAIRequest_of unconfigured (hello_request zero)) = None
  /\ top_p (openAIRequest_of unconfigured (hello_request zero)) = None.
Proof. repeat split; reflexivity. Qed.

(** C8.  Without an API key (missing or empty) the constructor throws
    'OpenAI API key is required' and no call has been made; with a key
    and without a base URL it returns a generator whose base URL is the
    official endpoint, again without a call. *)
Theorem constructor_contract cfg http_headers log :
  (given (apiKey cfg) = false ->
   construct cfg http_headers log =
     (Throw (Error "OpenAI API key is required"), log))
  /\ (given (apiKey cfg) = true -> given (baseUrl cfg) = false ->
      exists g, construct cfg http_headers log = (Ok g, log)
                /\ baseUrl (config g) = Some "https://api.openai.com/v1"%string
                /\ apiKey (config g) = apiKey cfg
                /\ httpOptions g = http_headers).
Proof.
  unfold construct, new_OpenAIContentGenerator. split.
  - intros ->. reflexivity.
  - intros -> ->. simpl. eexists. repeat split.
Qed.

Lemma constructor_contract_witness :
  selects_openai (openai_config None None None) = true
  /\ given (apiKey (openai_config None None None)) = false
  /\ construct (openai_config None None None) ∅ [] =
       (Throw (Error "OpenAI API key is required"), [])
  /\ given (apiKey (openai_config (Some "sk-test"%string) None None)) = true
  /\ given (baseUrl (openai_config (Some "sk-test"%string) None None)) = false
  /\ exists g, construct (openai_config (Some "sk-test"%string) None None) ∅ [] = (Ok g, [])
               /\ baseUrl (config g) = Some "https://api.openai.com/v1"%string.
Proof.
  split; [reflexivity|]. split; [reflexivity|].
  split; [apply (proj1 (constructor_contract (openai_config None None None) ∅ []));
          reflexivity|].
  split; [reflexivity|]. split; [reflexivity|].
  destruct (proj2 (constructor_contract
                     (openai_config (Some "sk-test"%string) None None) ∅ [])
              eq_refl eq_refl) as (g & Hg & Hurl & _).
  exists g. split; [exact Hg | exact Hurl].
Defined.

End GeneratorFacts.

(* ===================================================================== *)
(** ** The stream decoder                                                  *)
(* ===================================================================== *)

Module StreamFacts.

Import Js FormatMapper OpenAIClient Scenario.

Lemma append_cons c (s t : string) :
  String.append (String c s) t = String c (String.append s t).
Proof. reflexivity. Qed.

Lemma append_assoc (a b c : string) :
  String.append (String.append a b) c = String.append a (String.append b c).
Proof.
  induction a as [|x a IH]; [reflexivity|].
  rewrite !append_cons. by rewrite IH.
Qed.

Lemma split_lines_nonempty s : split_lines s <> [].
Proof.
  destruct s as [|c r]; simpl; [discriminate|].
  destruct (Ascii.eqb c LF); [discriminate|].
  destruct (split_lines r); discriminate.
Qed.

(** Splitting a text that continues: the complete lines of the first
    part stay, and its last, unfinished line is continued. *)
Lemma split_lines_app a b :
  split_lines (String.append a b) =
  removelast (split_lines a)
    ++ split_lines (String.append (List.last (split_lines a) EmptyString) b).
Proof.
  induction a as [|c r IH]; [reflexivity|].
  rewrite append_cons.
  pose proof (split_lines_nonempty r) as Hr.
  simpl. destruct (Ascii.eqb c LF) eqn:Hc.
  - rewrite IH. destruct (split_lines r) as [|l0 ls0]; [done|]. reflexivity.
  - rewrite IH. destruct (split_lines r) as [|l0 ls0]; [done|].
    destruct ls0 as [|l1 ls1].
    + simpl. rewrite Hc. reflexivity.
    + reflexivity.
Qed.

Lemma complete_lines_app a b :
  complete_lines (String.append a b) =
  complete_lines a
    ++ complete_lines (String.append (List.last (split_lines a) EmptyString) b).
Proof.
  unfold complete_lines. rewrite split_lines_app.
  apply removelast_app, split_lines_nonempty.
Qed.

(** The unfinished line holds no newline. *)
Lemma last_line_unfinished s :
  complete_lines (List.last (split_lines s) EmptyString) = [].
Proof.
  unfold complete_lines.
  induction s as [|c r IH]; [reflexivity|].
  pose proof (split_lines_nonempty r) as Hr.
  simpl. destruct (Ascii.eqb c LF) eqn:Hc.
  - destruct (split_lines r) as [|l0 ls0]; [done|]. exact IH.
  - destruct (split_lines r) as [|l0 ls0]; [done|].
    destruct ls0 as [|l1 ls1]; [|exact IH].
    simpl in *. rewrite Hc.
    destruct (split_lines l0) as [|m ms] eqn:Hm; [reflexivity|].
    destruct ms; [reflexivity|]. simpl in IH. discriminate.
Qed.

Section Decoder.

Variable JSON_parse : string -> option value.

Lemma for_lines_app l1 l2 :
  for_lines JSON_parse (l1 ++ l2) =
  let '(y1, returned) := for_lines JSON_parse l1 in
  if returned then (y1, true)
  else let '(y2, returned2) := for_lines JSON_parse l2 in (y1 ++ y2, returned2).
Proof.
  induction l1 as [|line l1 IH]; simpl.
  - by destruct (for_lines JSON_parse l2).
  - destruct (_ || _); [exact IH|].
    destruct (String.eqb _ "[DONE]"); [reflexivity|].
    destruct (JSON_parse _); [|exact IH].
    rewrite IH. destruct (for_lines JSON_parse l1) as [y1 [|]]; [reflexivity|].
    by destruct (for_lines JSON_parse l2).
Qed.

(** The loop over lines sees the data-bearing frames only. *)
Lemma for_lines_frames lines :
  for_lines JSON_parse lines = for_frames JSON_parse (data_frames lines).
Proof.
  unfold data_frames.
  induction lines as [|line lines IH]; [reflexivity|].
  simpl. rewrite filter_cons.
  destruct (JsString.startsWith (JsString.trim line) "data: ") eqn:Hd.
  - rewrite decide_True by reflexivity.
    assert (Hne : String.eqb (JsString.trim line) EmptyString = false).
    { destruct (JsString.trim line); [discriminate | reflexivity]. }
    rewrite Hne. simpl.
    destruct (String.eqb _ "[DONE]"); [reflexivity|].
    destruct (JSON_parse _); by rewrite IH.
  - rewrite decide_False by discriminate.
    rewrite orb_true_r. exact IH.
Qed.

(** However the body is cut into reads, the decoder handles the complete
    lines of the whole text, in order, up to the end marker. *)
Lemma read_loop_text chunks : forall buffer rejection,
  complete_lines buffer = [] ->
  read_loop JSON_parse buffer chunks rejection =
  let '(ys, returned) :=
    for_lines JSON_parse (complete_lines (String.append buffer (join_chunks chunks))) in
  {| yielded := ys;
     failure := if returned then None
                else match rejection with
                     | Some reason => Some (Rejected reason)
                     | None => None
                     end |}.
Proof.
  induction chunks as [|chunk chunks IH]; intros buffer rejection Hbuf.
  - simpl. rewrite FormatMapperFacts.append_empty_r, Hbuf. reflexivity.
  - simpl. rewrite <- append_assoc, complete_lines_app, for_lines_app.
    fold (complete_lines (String.append buffer chunk)).
    destruct (for_lines JSON_parse (complete_lines (String.append buffer chunk)))
      as [ys [|]]; [reflexivity|].
    rewrite IH by apply last_line_unfinished.
    by destruct (for_lines JSON_parse _) as [zs [|]].
Qed.

Theorem decode_stream_frames chunks :
  decode_stream JSON_parse chunks =
  decode_frames JSON_parse (data_frames (complete_lines (join_chunks chunks))).
Proof.
  unfold decode_stream, decode_frames.
  rewrite read_loop_text by reflexivity.
  change (String.append EmptyString (join_chunks chunks)) with (join_chunks chunks).
  rewrite for_lines_frames.
  by destruct (for_frames JSON_parse _) as [ys [|]].
Qed.

Lemma for_frames_skip pre bad post :
  JsString.slice 6 bad <> "[DONE]"%string ->
  JSON_parse (JsString.slice 6 bad) = None ->
  for_frames JSON_parse (pre ++ bad :: post) = for_frames JSON_parse (pre ++ post).
Proof.
  intros Hdone Hbad. apply String.eqb_neq in Hdone.
  induction pre as [|f pre IH].
  - change (for_frames JSON_parse ([] ++ bad :: post))
      with (if String.eqb (JsString.slice 6 bad) "[DONE]" then ([], true)
            else match JSON_parse (JsString.slice 6 bad) with
                 | Some parsed =>
                     let '(ys, returned) := for_frames JSON_parse post in
                     (parsed :: ys, returned)
                 | None => for_frames JSON_parse post
                 end).
    by rewrite Hdone, Hbad.
  - change (for_frames JSON_parse ((f :: pre) ++ bad :: post))
      with (if String.eqb (JsString.slice 6 f) "[DONE]" then ([], true)
            else match JSON_parse (JsString.slice 6 f) with
                 | Some parsed =>
                     let '(ys, returned) := for_frames JSON_parse (pre ++ bad :: post) in
                     (parsed :: ys, returned)
                 | None => for_frames JSON_parse (pre ++ bad :: post)
                 end).
    by rewrite IH.
Qed.

Lemma for_frames_emits f r rest :
  emits JSON_parse f r ->
  exists chunk delta,
    convert_chunk chunk = Ok (Some (delta, r))
    /\ for_frames JSON_parse (f :: rest) =
         (chunk :: fst (for_frames JSON_parse rest),
          snd (for_frames JSON_parse rest)).
Proof.
  intros (Hdone & chunk & delta & Hparse & Hconv).
  exists chunk, delta. split; [exact Hconv|].
  apply String.eqb_neq in Hdone.
  change (for_frames JSON_parse (f :: rest))
    with (if String.eqb (JsString.slice 6 f) "[DONE]" then ([], true)
          else match JSON_parse (JsString.slice 6 f) with
               | Some parsed =>
                   let '(ys, returned) := for_frames JSON_parse rest in
                   (parsed :: ys, returned)
               | None => for_frames JSON_parse rest
               end).
  rewrite Hdone, Hparse.
  by destruct (for_frames JSON_parse rest).
Qed.

End Decoder.

(** The response yielded for a chunk does not depend on the deltas
    accumulated before it. *)
Lemma convert_chunks_accumulator chunks ending : forall acc acc',
  convert_chunks acc chunks ending = convert_chunks acc' chunks ending.
Proof.
  induction chunks as [|chunk chunks IH]; intros acc acc'; simpl; [reflexivity|].
  destruct (convert_chunk chunk) as [[[delta r]|]|e]; [|apply IH|reflexivity].
  by rewrite (IH (acc ++ [delta]) (acc' ++ [delta])).
Qed.

(** C3.  Whatever the reads, when the data-bearing frames of the body
    are the frame of "Hel", the frame of "lo" and the end marker (which
    may be the last line, not yet ended by a newline), and [JSON.parse]
    reads the two payloads as the objects they denote, the consumer
    receives two partial responses, whose texts are "Hel" and then "lo",
    and the sequence ends without error. *)
Theorem stream_hel_lo JSON_parse chunks :
  JSON_parse (delta_payload "Hel") = Some (delta_chunk "Hel") ->
  JSON_parse (delta_payload "lo") = Some (delta_chunk "lo") ->
  data_frames (complete_lines (join_chunks chunks)) =
    [ delta_frame "Hel"; delta_frame "lo"; done_frame ]
  \/ (data_frames (complete_lines (join_chunks chunks)) =
        [ delta_frame "Hel"; delta_frame "lo" ]
      /\ JsString.trim (unfinished_line (join_chunks chunks)) = done_frame) ->
  decode_stream JSON_parse chunks =
    {| yielded := [ partial_response "Hel"; partial_response "lo" ];
       failure := None |}
  /\ map text_of (yielded (decode_stream JSON_parse chunks)) =
       [ [VStr "Hel"]; [VStr "lo"] ].
Proof.
  intros Hhel Hlo Hframes.
  assert (Hrun : decode_stream JSON_parse chunks =
                 {| yielded := [ partial_response "Hel"; partial_response "lo" ];
                    failure := None |}).
  { rewrite decode_stream_frames. unfold decode_frames.
    destruct Hframes as [-> | [-> _]]; unfold for_frames;
      change (JsString.slice 6 (delta_frame "Hel")) with (delta_payload "Hel");
      change (JsString.slice 6 (delta_frame "lo")) with (delta_payload "lo");
      change (String.eqb (delta_payload "Hel") "[DONE]") with false;
      change (String.eqb (delta_payload "lo") "[DONE]") with false;
      cbv iota; rewrite Hhel, Hlo; reflexivity. }
  split; [exact Hrun|]. rewrite Hrun. reflexivity.
Qed.

Lemma stream_hel_lo_witness :
  let chunks :=
    [ ("data: " +:+ delta_payload "Hel" +:+ NL +:+ NL +:+ "da")%string;
      ("ta: " +:+ delta_payload "lo" +:+ NL)%string;
      (NL +:+ "data: [DONE]" +:+ NL +:+ NL)%string ] in
  Json.parse (delta_payload "Hel") = Some (delta_chunk "Hel")
  /\ Json.parse (delta_payload "lo") = Some (delta_chunk "lo")
  /\ data_frames (complete_lines (join_chunks chunks)) =
       [ delta_frame "Hel"; delta_frame "lo"; done_frame ]
  /\ decode_stream Json.parse chunks =
       {| yielded := [ partial_response "Hel"; partial_response "lo" ];
          failure := None |}.
Proof.
  intros chunks.
  assert (H1 : Json.parse (delta_payload "Hel") = Some (delta_chunk "Hel"))
    by (vm_compute; reflexivity).
  assert (H2 : Json.parse (delta_payload "lo") = Some (delta_chunk "lo"))
    by (vm_compute; reflexivity).
  assert (H3 : data_frames (complete_lines (join_chunks chunks)) =
               [ delta_frame "Hel"; delta_frame "lo"; done_frame ])
    by (vm_compute; reflexivity).
  split; [exact H1|]. split; [exact H2|]. split; [exact H3|].
  exact (proj1 (stream_hel_lo Json.parse chunks H1 H2 (or_introl H3))).
Defined.

(** C5.  A data-bearing frame whose payload is not the end marker and
    does not parse leaves no trace: the consumer receives what it would
    receive from the body without that frame; in particular, between a
    frame that emits [r1] and a frame that emits [r2], it receives [r1]
    and then [r2], and the sequence ends without error. *)
Theorem malformed_frame_skipped JSON_parse chunks pre bad post :
  data_frames (complete_lines (join_chunks chunks)) = pre ++ bad :: post ->
  JsString.slice 6 bad <> "[DONE]"%string ->
  JSON_parse (JsString.slice 6 bad) = None ->
  decode_stream JSON_parse chunks = decode_frames JSON_parse (pre ++ post)
  /\ forall f1 f2 r1 r2,
       pre = [f1] -> post = [f2] ->
       emits JSON_parse f1 r1 -> emits JSON_parse f2 r2 ->
       decode_stream JSON_parse chunks =
         {| yielded := [r1; r2]; failure := None |}.
Proof.
  intros Hframes Hdone Hbad.
  assert (Hskip : decode_stream JSON_parse chunks =
                  decode_frames JSON_parse (pre ++ post)).
  { rewrite decode_stream_frames, Hframes. unfold decode_frames.
    by rewrite for_frames_skip. }
  split; [exact Hskip|].
  intros f1 f2 r1 r2 -> -> He1 He2. rewrite Hskip. unfold decode_frames.
  change ([f1] ++ [f2]) with [f1; f2].
  destruct (for_frames_emits JSON_parse f1 r1 [f2] He1) as (c1 & d1 & Hc1 & ->).
  destruct (for_frames_emits JSON_parse f2 r2 [] He2) as (c2 & d2 & Hc2 & ->).
  unfold convertStreamToGeminiFormat.
  cbn [fst snd for_frames yielded failure convert_chunks].
  rewrite Hc1. cbn [convert_chunks]. by rewrite Hc2.
Qed.

Lemma malformed_frame_skipped_witness :
  let chunks :=
    [ ("data: " +:+ delta_payload "Hel" +:+ NL +:+ "data: {not")%string;
      (" json" +:+ NL +:+ "data: " +:+ delta_payload "lo" +:+ NL)%string ] in
  data_frames (complete_lines (join_chunks chunks)) =
    [ delta_frame "Hel" ] ++ "data: {not json"%string :: [ delta_frame "lo" ]
  /\ JsString.slice 6 "data: {not json" <> "[DONE]"%string
  /\ Json.parse (JsString.slice 6 "data: {not json") = None
  /\ emits Json.parse (delta_frame "Hel") (partial_response "Hel")
  /\ emits Json.parse (delta_frame "lo") (partial_response "lo")
  /\ decode_stream Json.parse chunks =
       {| yielded := [ partial_response "Hel"; partial_response "lo" ];
          failure := None |}.
Proof.
  intros chunks.
  assert (H1 : data_frames (complete_lines (join_chunks chunks)) =
               [ delta_frame "Hel" ] ++ "data: {not json"%string :: [ delta_frame "lo" ])
    by (vm_compute; reflexivity).
  assert (H2 : JsString.slice 6 "data: {not json" <> "[DONE]"%string)
    by discriminate.
  assert (H3 : Json.parse (JsString.slice 6 "data: {not json") = None)
    by (vm_compute; reflexivity).
  assert (E1 : emits Json.parse (delta_frame "Hel") (partial_response "Hel")).
  { split; [discriminate|].
    exists (delta_chunk "Hel"), (VStr "Hel"). split; vm_compute; reflexivity. }
  assert (E2 : emits Json.parse (delta_frame "lo") (partial_response "lo")).
  { split; [discriminate|].
    exists (delta_chunk "lo"), (VStr "lo"). split; vm_compute; reflexivity. }
  split; [exact H1|]. split; [exact H2|]. split; [exact H3|].
  split; [exact E1|]. split; [exact E2|].
  exact (proj2 (malformed_frame_skipped Json.parse chunks _ _ _ H1 H2 H3)
           _ _ _ _ eq_refl eq_refl E1 E2).
Defined.

End StreamFacts.

(* ===================================================================== *)
(** ** The stream decoder, continued                                       *)
(* ===================================================================== *)

Module DecoderFacts.

Import Js FormatMapper OpenAIClient Scenario.

Lemma join_chunks_app c1 c2 :
  join_chunks (c1 ++ c2) = String.append (join_chunks c1) (join_chunks c2).
Proof.
  induction c1 as [|c c1 IH]; [reflexivity|].
  simpl. by rewrite IH, StreamFacts.append_assoc.
Qed.

(** A text without newline has no complete line, and stays so when such
    a text follows it. *)
Lemma unfinished_app a b :
  complete_lines a = [] -> complete_lines b = [] ->
  complete_lines (String.append a b) = [].
Proof.
  unfold complete_lines. intros Ha Hb.
  induction a as [|c r IH]; [exact Hb|].
  rewrite StreamFacts.append_cons.
  pose proof (StreamFacts.split_lines_nonempty r) as Hr.
  pose proof (StreamFacts.split_lines_nonempty (String.append r b)) as Hrb.
  simpl in *. destruct (Ascii.eqb c LF).
  - destruct (split_lines r); [done | discriminate].
  - destruct (split_lines r) as [|l [|l' ls]]; [done | | discriminate].
    specialize (IH eq_refl).
    destruct (split_lines (String.append r b)) as [|x [|y ys]]; [done | done | discriminate].
Qed.

Section Decoder.

Variable JSON_parse : string -> option value.

Lemma for_frames_cons f rest :
  for_frames JSON_parse (f :: rest) =
  if String.eqb (JsString.slice 6 f) "[DONE]" then ([], true)
  else match JSON_parse (JsString.slice 6 f) with
       | Some parsed =>
           let '(ys, returned) := for_frames JSON_parse rest in
           (parsed :: ys, returned)
       | None => for_frames JSON_parse rest
       end.
Proof. reflexivity. Qed.

Lemma for_frames_app pre rest :
  for_frames JSON_parse (pre ++ rest) =
  if snd (for_frames JSON_parse pre) then for_frames JSON_parse pre
  else (fst (for_frames JSON_parse pre) ++ fst (for_frames JSON_parse rest),
        snd (for_frames JSON_parse rest)).
Proof.
  induction pre as [|f pre IH].
  - simpl. by destruct (for_frames JSON_parse rest).
  - change ((f :: pre) ++ rest) with (f :: (pre ++ rest)).
    rewrite !for_frames_cons.
    destruct (String.eqb _ _); [reflexivity|].
    destruct (JSON_parse _); [|exact IH].
    rewrite IH. destruct (for_frames JSON_parse pre) as [ys [|]]; reflexivity.
Qed.

Lemma for_frames_length frames :
  (length (fst (for_frames JSON_parse frames)) <= length frames)%nat.
Proof.
  induction frames as [|f frames IH]; [reflexivity|].
  rewrite for_frames_cons.
  destruct (String.eqb _ _); [simpl; lia|].
  destruct (JSON_parse _).
  - destruct (for_frames JSON_parse frames). simpl in *. lia.
  - simpl. lia.
Qed.

End Decoder.

(** How [convertStreamToGeminiFormat] runs over a source in two parts. *)
Lemma convert_chunks_app xs : forall acc ys ending,
  convert_chunks acc (xs ++ ys) ending =
  match failure (convert_chunks acc xs None) with
  | Some e => convert_chunks acc xs None
  | None => {| yielded := yielded (convert_chunks acc xs None)
                            ++ yielded (convert_chunks acc ys ending);
               failure := failure (convert_chunks acc ys ending) |}
  end.
Proof.
  induction xs as [|x xs IH]; intros acc ys ending.
  - simpl. by destruct (convert_chunks acc ys ending).
  - simpl. destruct (convert_chunk x) as [[[delta r]|]|e]; [| apply IH | reflexivity].
    rewrite IH. simpl.
    destruct (failure (convert_chunks (acc ++ [delta]) xs None)) eqn:Hf; simpl;
      [by rewrite Hf|].
    by rewrite (StreamFacts.convert_chunks_accumulator ys ending (acc ++ [delta]) acc).
Qed.

Lemma convert_chunks_ending chunks : forall acc ending,
  yielded (convert_chunks acc chunks ending) = yielded (convert_chunks acc chunks None)
  /\ failure (convert_chunks acc chunks ending) =
       match failure (convert_chunks acc chunks None) with
       | Some e => Some e
       | None => ending
       end.
Proof.
  induction chunks as [|c chunks IH]; intros acc ending; [by split|].
  simpl. destruct (convert_chunk c) as [[[delta r]|]|e]; [| apply IH | by split].
  simpl. destruct (IH (acc ++ [delta]) ending) as [-> ->]. by split.
Qed.

Lemma convert_chunks_length chunks : forall acc ending,
  (length (yielded (convert_chunks acc chunks ending)) <= length chunks)%nat.
Proof.
  induction chunks as [|c chunks IH]; intros acc ending; [reflexivity|].
  simpl. destruct (convert_chunk c) as [[[delta r]|]|e]; simpl.
  - specialize (IH (acc ++ [delta]) ending). lia.
  - specialize (IH acc ending). lia.
  - lia.
Qed.

(** X1.  The partial responses depend on the text of the body only, not
    on where the reads cut it. *)
Theorem decode_stream_chunking JSON_parse chunks1 chunks2 :
  join_chunks chunks1 = join_chunks chunks2 ->
  decode_stream JSON_parse chunks1 = decode_stream JSON_parse chunks2.
Proof.
  intros Htext. by rewrite !StreamFacts.decode_stream_frames, Htext.
Qed.

Lemma decode_stream_chunking_witness :
  let text := ("data: " +:+ delta_payload "Hel" +:+ NL +:+ "data: [DONE]" +:+ NL)%string in
  let cut := [ "da"%string;
               ("ta: " +:+ delta_payload "Hel")%string;
               (NL +:+ "data: [DO")%string;
               ("NE]" +:+ NL)%string ] in
  join_chunks [text] = join_chunks cut
  /\ decode_stream Json.parse [text] = decode_stream Json.parse cut
  /\ decode_stream Json.parse cut =
       {| yielded := [ partial_response "Hel" ]; failure := None |}.
Proof.
  intros text cut.
  assert (H : join_chunks [text] = join_chunks cut) by (vm_compute; reflexivity).
  split; [exact H|].
  split; [exact (decode_stream_chunking Json.parse [text] cut H)|].
  vm_compute. reflexivity.
Defined.

(** X2.  Nothing that follows the end marker is decoded: the consumer
    receives what the frames before it give. *)
Theorem nothing_after_done JSON_parse chunks pre f post :
  data_frames (complete_lines (join_chunks chunks)) = pre ++ f :: post ->
  JsString.slice 6 f = "[DONE]"%string ->
  decode_stream JSON_parse chunks = decode_frames JSON_parse pre.
Proof.
  intros Hframes Hdone.
  rewrite StreamFacts.decode_stream_frames, Hframes. unfold decode_frames.
  rewrite for_frames_app, for_frames_cons, Hdone. simpl.
  destruct (for_frames JSON_parse pre) as [ys [|]]; simpl; [reflexivity|].
  by rewrite app_nil_r.
Qed.

Lemma nothing_after_done_witness :
  let chunks :=
    [ ("data: " +:+ delta_payload "Hel" +:+ NL +:+ "data: [DONE]" +:+ NL
       +:+ "data: " +:+ delta_payload "lost" +:+ NL)%string ] in
  data_frames (complete_lines (join_chunks chunks)) =
    [ delta_frame "Hel" ] ++ done_frame :: [ delta_frame "lost" ]
  /\ JsString.slice 6 done_frame = "[DONE]"%string
  /\ decode_stream Json.parse chunks = decode_frames Json.parse [ delta_frame "Hel" ]
  /\ decode_frames Json.parse [ delta_frame "Hel" ] =
       {| yielded := [ partial_response "Hel" ]; failure := None |}.
Proof.
  intros chunks.
  assert (H : data_frames (complete_lines (join_chunks chunks)) =
              [ delta_frame "Hel" ] ++ done_frame :: [ delta_frame "lost" ])
    by (vm_compute; reflexivity).
  split; [exact H|]. split; [reflexivity|].
  split; [exact (nothing_after_done Json.parse chunks _ _ _ H eq_refl)|].
  vm_compute. reflexivity.
Defined.

(** X3.  A last read without newline is never decoded: the body ends
    and what the buffer holds is dropped. *)
Theorem unterminated_tail_dropped JSON_parse chunks tail :
  complete_lines tail = [] ->
  decode_stream JSON_parse (chunks ++ [tail]) = decode_stream JSON_parse chunks.
Proof.
  intros Htail. rewrite !StreamFacts.decode_stream_frames. f_equal. f_equal.
  rewrite join_chunks_app. simpl. rewrite FormatMapperFacts.append_empty_r.
  rewrite StreamFacts.complete_lines_app.
  rewrite unfinished_app; [by rewrite app_nil_r | | exact Htail].
  apply StreamFacts.last_line_unfinished.
Qed.

Lemma unterminated_tail_dropped_witness :
  let chunks := [ ("data: " +:+ delta_payload "Hel" +:+ NL)%string ] in
  let tail := ("data: " +:+ delta_payload "lo")%string in
  complete_lines tail = []
  /\ decode_stream Json.parse (chunks ++ [tail]) = decode_stream Json.parse chunks
  /\ decode_stream Json.parse chunks =
       {| yielded := [ partial_response "Hel" ]; failure := None |}.
Proof.
  intros chunks tail.
  assert (H : complete_lines tail = []) by (vm_compute; reflexivity).
  split; [exact H|].
  split; [exact (unterminated_tail_dropped Json.parse chunks tail H)|].
  vm_compute. reflexivity.
Defined.

(** X4.  When a read is rejected after the reads [chunks], the consumer
    has received the same partial responses as from a body that ends
    there; the sequence then fails with the rejection, unless the end
    marker had been reached (it ends normally) or a chunk had already
    made the conversion throw. *)
Theorem read_failure_is_terminal JSON_parse chunks reason :
  let broken :=
    convertStreamToGeminiFormat
      (read_loop JSON_parse EmptyString chunks (Some reason)) in
  let whole := decode_stream JSON_parse chunks in
  let done_seen :=
    snd (for_frames JSON_parse (data_frames (complete_lines (join_chunks chunks)))) in
  yielded broken = yielded whole
  /\ failure broken =
       match failure whole with
       | Some e => Some e
       | None => if done_seen then None else Some (Rejected reason)
       end.
Proof.
  simpl. unfold decode_stream, convertStreamToGeminiFormat.
  rewrite !StreamFacts.read_loop_text by reflexivity.
  change (String.append EmptyString (join_chunks chunks)) with (join_chunks chunks).
  rewrite StreamFacts.for_lines_frames.
  destruct (for_frames JSON_parse _) as [ys [|]]; simpl; [by destruct (failure _)|].
  destruct (convert_chunks_ending ys [] (Some (Rejected reason))) as [-> ->].
  by destruct (failure (convert_chunks [] ys None)).
Qed.

Lemma for_frames_no_done JSON_parse frames :
  Forall (fun g => JsString.slice 6 g <> "[DONE]"%string) frames ->
  snd (for_frames JSON_parse frames) = false.
Proof.
  induction 1 as [|f frames Hf _ IH]; [reflexivity|].
  rewrite for_frames_cons. apply String.eqb_neq in Hf. rewrite Hf.
  destruct (JSON_parse _); [|exact IH].
  destruct (for_frames JSON_parse frames). exact IH.
Qed.

Lemma convert_chunk_no_choices chunk :
  nullish (get_opt chunk "choices") = true ->
  convert_chunk chunk = Throw TypeError.
Proof.
  unfold convert_chunk, get, get_opt.
  destruct (nullish chunk); [reflexivity|]. simpl. by intros ->.
Qed.

Lemma convert_chunk_no_choice chunk :
  nullish (get_opt chunk "choices") = false ->
  truthy (at0 (field chunk "choices")) = false ->
  convert_chunk chunk = Ok None.
Proof.
  unfold convert_chunk, get, get_opt.
  destruct (nullish chunk); [discriminate|]. simpl. by intros -> ->.
Qed.

(** X5.  A frame whose payload parses to a value without [choices] is
    not skipped: the consumer receives the partial responses of the
    frames before it, and then the sequence fails with a TypeError. *)
Theorem frame_without_choices_aborts JSON_parse chunks pre f post chunk :
  data_frames (complete_lines (join_chunks chunks)) = pre ++ f :: post ->
  Forall (fun g => JsString.slice 6 g <> "[DONE]"%string) (pre ++ [f]) ->
  failure (decode_frames JSON_parse pre) = None ->
  JSON_parse (JsString.slice 6 f) = Some chunk ->
  nullish (get_opt chunk "choices") = true ->
  decode_stream JSON_parse chunks =
    {| yielded := yielded (decode_frames JSON_parse pre);
       failure := Some TypeError |}.
Proof.
  intros Hframes Hnodone Hpre Hparse Hchoices.
  apply Forall_app in Hnodone as [Hnopre Hf].
  apply Forall_cons in Hf as [Hf _]. apply String.eqb_neq in Hf.
  rewrite StreamFacts.decode_stream_frames, Hframes.
  unfold decode_frames, convertStreamToGeminiFormat in *.
  cbn [yielded failure] in *.
  rewrite for_frames_app, (for_frames_no_done _ _ Hnopre), for_frames_cons, Hf, Hparse.
  destruct (for_frames JSON_parse post) as [ys returned]. cbn [fst snd].
  rewrite convert_chunks_app, Hpre. cbn [convert_chunks].
  rewrite (convert_chunk_no_choices _ Hchoices). cbn [yielded failure].
  by rewrite app_nil_r.
Qed.

Lemma frame_without_choices_aborts_witness :
  let chunks :=
    [ ("data: " +:+ delta_payload "Hel" +:+ NL +:+ "data: {}" +:+ NL
       +:+ "data: " +:+ delta_payload "lo" +:+ NL)%string ] in
  data_frames (complete_lines (join_chunks chunks)) =
    [ delta_frame "Hel" ] ++ "data: {}"%string :: [ delta_frame "lo" ]
  /\ Json.parse (JsString.slice 6 "data: {}") = Some (VObj [])
  /\ nullish (get_opt (VObj []) "choices") = true
  /\ decode_stream Json.parse chunks =
       {| yielded := [ partial_response "Hel" ]; failure := Some TypeError |}.
Proof.
  intros chunks.
  assert (H : data_frames (complete_lines (join_chunks chunks)) =
              [ delta_frame "Hel" ] ++ "data: {}"%string :: [ delta_frame "lo" ])
    by (vm_compute; reflexivity).
  assert (Hp : Json.parse (JsString.slice 6 "data: {}") = Some (VObj []))
    by (vm_compute; reflexivity).
  split; [exact H|]. split; [exact Hp|]. split; [reflexivity|].
  refine (eq_trans
            (frame_without_choices_aborts Json.parse chunks _ _ _ _ H _ _ Hp eq_refl) _).
  - repeat constructor; discriminate.
  - vm_compute. reflexivity.
  - vm_compute. reflexivity.
Defined.

(** X6.  A frame whose payload parses to a value with [choices] but
    without a first choice (an empty array) leaves no trace: the
    consumer receives what it would receive without that frame. *)
Theorem frame_without_first_choice_skipped JSON_parse chunks pre f post chunk :
  data_frames (complete_lines (join_chunks chunks)) = pre ++ f :: post ->
  JsString.slice 6 f <> "[DONE]"%string ->
  JSON_parse (JsString.slice 6 f) = Some chunk ->
  nullish (get_opt chunk "choices") = false ->
  truthy (at0 (field chunk "choices")) = false ->
  decode_stream JSON_parse chunks = decode_frames JSON_parse (pre ++ post).
Proof.
  intros Hframes Hf Hparse Hchoices Hfirst. apply String.eqb_neq in Hf.
  rewrite StreamFacts.decode_stream_frames, Hframes.
  unfold decode_frames, convertStreamToGeminiFormat. cbn [yielded failure].
  rewrite !for_frames_app, for_frames_cons, Hf, Hparse.
  destruct (for_frames JSON_parse pre) as [xs [|]]; cbn [fst snd]; [reflexivity|].
  destruct (for_frames JSON_parse post) as [ys returned]. cbn [fst snd].
  rewrite !convert_chunks_app. cbn [convert_chunks].
  by rewrite (convert_chunk_no_choice _ Hchoices Hfirst).
Qed.

Lemma frame_without_first_choice_skipped_witness :
  let empty := ("{" +:+ Json.q "choices" +:+ ":[]}")%string in
  let chunks :=
    [ ("data: " +:+ delta_payload "Hel" +:+ NL +:+ "data: " +:+ empty +:+ NL
       +:+ "data: " +:+ delta_payload "lo" +:+ NL)%string ] in
  data_frames (complete_lines (join_chunks chunks)) =
    [ delta_frame "Hel" ] ++ ("data: " +:+ empty)%string :: [ delta_frame "lo" ]
  /\ Json.parse empty = Some (VObj [ ("choices"%string, VArr []) ])
  /\ decode_stream Json.parse chunks =
       {| yielded := [ partial_response "Hel"; partial_response "lo" ];
          failure := None |}.
Proof.
  intros empty chunks.
  assert (H : data_frames (complete_lines (join_chunks chunks)) =
              [ delta_frame "Hel" ] ++ ("data: " +:+ empty)%string :: [ delta_frame "lo" ])
    by (vm_compute; reflexivity).
  assert (Hp : Json.parse (JsString.slice 6 ("data: " +:+ empty)) =
               Some (VObj [ ("choices"%string, VArr []) ]))
    by (vm_compute; reflexivity).
  split; [exact H|]. split; [exact Hp|].
  refine (eq_trans
            (frame_without_first_choice_skipped Json.parse chunks _ _ _ _ H _ Hp
               eq_refl eq_refl) _).
  - discriminate.
  - vm_compute. reflexivity.
Defined.

Lemma or_cases a b : (or a b = a /\ truthy a = true) \/ or a b = b.
Proof. unfold or. destruct (truthy a); [by left | by right]. Qed.


(** X8.  The consumer receives at most one partial response for each
    data-bearing frame of the body. *)
Theorem at_most_one_partial_per_frame JSON_parse chunks :
  (length (yielded (decode_stream JSON_parse chunks))
   <= length (data_frames (complete_lines (join_chunks chunks))))%nat.
Proof.
  rewrite StreamFacts.decode_stream_frames.
  unfold decode_frames, convertStreamToGeminiFormat. simpl.
  etrans; [apply convert_chunks_length | apply for_frames_length].
Qed.

End DecoderFacts.

(* ===================================================================== *)
(** ** FormatMapper and countTokens, continued                             *)
(* ===================================================================== *)

Module MapperFacts.

Import Js FormatMapper OpenAIClient Universal Scenario.



(** X10.  A response without a first choice and without a message (an
    empty [choices] array, say) gives the candidate with the empty
    text, the finish reason "STOP" and the index 0. *)
Theorem response_without_shape (response : value) :
  nullish response = false ->
  truthy (at0 (field response "choices")) = false ->
  truthy (field response "message") = false ->
  exists r, openAIResponseToGemini response = Ok r
            /\ candidates r =
                 [ candidate_of (VStr EmptyString) (VStr "STOP") (VNum 0) ].
Proof.
  intros Hresp Hchoice Hmsg. unfold openAIResponseToGemini, get.
  rewrite Hresp. simpl. rewrite Hchoice, Hmsg, andb_false_r. simpl.
  eexists. split; reflexivity.
Qed.

Lemma response_without_shape_witness :
  let response := VObj [ ("id"%string, VStr "chatcmpl-1"); ("choices"%string, VArr []) ] in
  nullish response = false
  /\ truthy (at0 (field response "choices")) = false
  /\ truthy (field response "message") = false
  /\ exists r, openAIResponseToGemini response = Ok r
               /\ candidates r =
                    [ candidate_of (VStr EmptyString) (VStr "STOP") (VNum 0) ].
Proof.
  intros response. split; [reflexivity|]. split; [reflexivity|]. split; [reflexivity|].
  apply (response_without_shape response); reflexivity.
Defined.

(** X11.  [openAIToUniversal] throws (a TypeError) exactly when the
    response or its [choices] is null or undefined.  Otherwise the
    content is never null or undefined, [functionCalls] is undefined or
    holds exactly one call, never an empty list, and without a first
    choice the content is empty and finish reason and function calls
    are undefined. *)
Theorem universal_mapping (response : value) :
  match openAIToUniversal response with
  | Throw e => e = TypeError /\ nullish (get_opt response "choices") = true
  | Ok u =>
      nullish (get_opt response "choices") = false
      /\ (truthy (u_content u) = true \/ u_content u = VStr EmptyString)
      /\ (u_functionCalls u = None \/ exists n a, u_functionCalls u = Some [ (n, a) ])
      /\ (truthy (at0 (field response "choices")) = false ->
          u_content u = VStr EmptyString
          /\ u_finishReason u = VUndefined
          /\ u_functionCalls u = None)
  end.
Proof.
  unfold openAIToUniversal, get, get_opt.
  destruct (nullish response); simpl; [by split|].
  destruct (nullish (field response "choices")); simpl; [by split|].
  split; [reflexivity|].
  set (choice := at0 (field response "choices")).
  split; [| split].
  - match goal with
    | |- context [or ?a ?b] =>
        destruct (DecoderFacts.or_cases a b) as [[-> ?]| ->]; [by left | by right]
    end.
  - match goal with
    | |- context [if truthy ?fc then _ else _] => destruct (truthy fc)
    end; [right; eauto | by left].
  - intros Hchoice.
    assert (Hfield : forall k, field choice k = VUndefined).
    { intros k. destruct choice; try reflexivity. discriminate. }
    destruct (nullish choice); simpl; [by repeat split|].
    rewrite !Hfield. simpl. by repeat split.
Qed.

(** X12.  [openAIToGemini] and then [geminiToOpenAI] give back the
    messages as they were, for messages of the OpenAI roles (none has
    the role "model"). *)
Theorem openai_gemini_roundtrip (messages : list OpenAIMessage) :
  Forall (fun m => msg_role m <> Some "model"%string) messages ->
  geminiToOpenAI (openAIToGemini messages) = messages.
Proof.
  induction 1 as [|m ms Hm _ IH]; [reflexivity|].
  change (openAIToGemini (m :: ms)) with (openAIToGemini [m] ++ openAIToGemini ms).
  unfold geminiToOpenAI in *. rewrite map_app, IH. simpl. f_equal.
  destruct m as [r c]. simpl in *. f_equal.
  - destruct (decide (r = Some "assistant"%string)) as [->|Hne]; [reflexivity|].
    by rewrite decide_False.
  - rewrite filter_cons. unfold has_text. simpl.
    destruct c as [|x c]; simpl; [reflexivity|].
    apply FormatMapperFacts.append_empty_r.
Qed.

Lemma openai_gemini_roundtrip_witness :
  let messages :=
    [ {| msg_role := Some "system"%string; msg_content := "Be brief."%string |};
      {| msg_role := Some "user"%string; msg_content := EmptyString |};
      {| msg_role := Some "assistant"%string; msg_content := "Hello"%string |} ] in
  Forall (fun m => msg_role m <> Some "model"%string) messages
  /\ geminiToOpenAI (openAIToGemini messages) = messages.
Proof.
  intros messages.
  assert (H : Forall (fun m => msg_role m <> Some "model"%string) messages)
    by (repeat constructor; discriminate).
  split; [exact H | exact (openai_gemini_roundtrip messages H)].
Defined.

Lemma join_all_parts ps : join (map text ps) = text_of_parts ps.
Proof.
  induction ps as [|p ps IH]; [reflexivity|].
  simpl. rewrite IH. by destruct (text p).
Qed.

Lemma ceil_quarter_bounds n :
  4 * (ceil_quarter n - 1) < Z.of_nat n <= 4 * ceil_quarter n.
Proof.
  unfold ceil_quarter.
  pose proof (Z.div_mod (Z.of_nat n + 3) 4 ltac:(lia)) as Hdm.
  pose proof (Z.mod_pos_bound (Z.of_nat n + 3) 4 ltac:(lia)) as Hm.
  lia.
Qed.

(** X13.  [countTokens] measures the text that [geminiToOpenAI] sends:
    the contents of the messages, one space between two of them; and
    its result is the least number of blocks of four characters that
    hold this text (so it is 0 for the empty text only). *)
Theorem countTokens_measures_messages (contents : ContentListUnion) :
  let sent :=
    join_sep " " (map msg_content (geminiToOpenAI (convertToContentArray contents))) in
  let n := Z.of_nat (js_length sent) in
  countTokens contents = ceil_quarter (js_length sent)
  /\ 4 * (countTokens contents - 1) < n <= 4 * countTokens contents.
Proof.
  simpl.
  assert (Htext : counted_text (convertToContentArray contents) =
                  join_sep " " (map msg_content
                                  (geminiToOpenAI (convertToContentArray contents)))).
  { unfold counted_text, geminiToOpenAI. rewrite map_map. f_equal.
    apply map_ext. intros c. simpl.
    destruct (parts c) as [ps|]; [|reflexivity].
    by rewrite join_all_parts, FormatMapperFacts.join_text_parts. }
  unfold countTokens. rewrite Htext. split; [reflexivity|].
  apply ceil_quarter_bounds.
Qed.

End MapperFacts.

(* ===================================================================== *)
(** ** ModelConfigManager and tokenLimit, continued                        *)
(* ===================================================================== *)

Module ConfigFacts.

Import JsString ModelConfig TokenLimits ModelNames Scenario.

Lemma initialize_initialized amb m : isInitialized (initialize amb m) = true.
Proof. unfold initialize. by destruct (isInitialized m) eqn:H. Qed.

Lemma initialize_idempotent amb1 amb2 m :
  initialize amb2 (initialize amb1 m) = initialize amb1 m.
Proof.
  unfold initialize at 1. by rewrite initialize_initialized.
Qed.

Lemma getTokenLimit_state amb m name :
  snd (getTokenLimit amb m name) = initialize amb m.
Proof.
  unfold getTokenLimit.
  replace (if isInitialized m then m else initialize amb m)
    with (initialize amb m) by (unfold initialize; by destruct (isInitialized m)).
  destruct (limits (initialize amb m) !! name) as [n|]; [|reflexivity].
  by destruct (negb (n =? 0)).
Qed.

Lemma getTokenLimit_initialize amb m name :
  fst (getTokenLimit amb m name) =
  fst (getTokenLimit amb (initialize amb m) name).
Proof.
  unfold getTokenLimit. rewrite initialize_initialized.
  by replace (if isInitialized m then m else initialize amb m)
    with (initialize amb m) by (unfold initialize; by destruct (isInitialized m)).
Qed.

Lemma getTokenLimit_initialized amb1 amb2 m name :
  isInitialized m = true ->
  getTokenLimit amb1 m name = getTokenLimit amb2 m name.
Proof. intros H. unfold getTokenLimit. by rewrite H. Qed.

(** X14.  The table is built by the first lookup and cached: after
    it, a lookup under other surroundings answers from the same table,
    and the manager does not change any more; [refresh] rebuilds the
    table, from the defaults, for the surroundings it is given. *)
Theorem table_cached_until_refresh amb1 amb2 m name name' :
  let m1 := snd (getTokenLimit amb1 m name) in
  fst (getTokenLimit amb2 m1 name) = fst (getTokenLimit amb1 m name)
  /\ fst (getTokenLimit amb2 m1 name') = fst (getTokenLimit amb1 m1 name')
  /\ snd (getTokenLimit amb2 m1 name') = m1
  /\ fst (getTokenLimit amb1 (refresh amb2 m1) name') =
       fst (getTokenLimit amb2 new_manager name').
Proof.
  simpl. rewrite getTokenLimit_state.
  pose proof (initialize_initialized amb1 m) as Hinit.
  split; [|split; [|split]].
  - rewrite (getTokenLimit_initialized amb2 amb1) by done.
    symmetry. apply getTokenLimit_initialize.
  - by rewrite (getTokenLimit_initialized amb2 amb1).
  - rewrite getTokenLimit_state. apply initialize_idempotent.
  - unfold refresh.
    rewrite (getTokenLimit_initialized amb1 amb2) by apply initialize_initialized.
    symmetry. apply getTokenLimit_initialize.
Qed.

Lemma env_step_ignored tl kv : is_ignored kv = true -> env_step tl kv = tl.
Proof.
  destruct kv as [key value]. unfold is_ignored, env_step. simpl.
  destruct (startsWith key TOKEN_LIMIT_PREFIX); simpl; [|done].
  destruct (truthy value); simpl; [|done].
  destruct (parseInt value); simpl; [|done].
  discriminate.
Qed.

(** X15.  An environment variable that does not start with
    MODEL_TOKEN_LIMIT_, or is empty, or does not start with a number,
    changes no token limit: the table is the one built without it. *)
Theorem ignored_variable_changes_nothing pre kv post json :
  is_ignored kv = true ->
  limits (initialize {| process_env := pre ++ kv :: post; models_json := json |}
                     new_manager)
  = limits (initialize {| process_env := pre ++ post; models_json := json |}
                       new_manager).
Proof.
  intros Hkv. unfold initialize, loadFromProcessEnv, loadFromJson. simpl.
  rewrite !fold_left_app. simpl. by rewrite env_step_ignored.
Qed.

Lemma ignored_variable_changes_nothing_witness :
  is_ignored ("MODEL_TOKEN_LIMIT_GPT_4_CUSTOM", "many")%string = true
  /\ is_ignored ("TOKEN_LIMIT_GPT_4_CUSTOM", "5")%string = true
  /\ limits (initialize (with_env [ ("MODEL_TOKEN_LIMIT_GPT_4_CUSTOM", "many")%string ])
                        new_manager)
     = limits (initialize bare new_manager).
Proof.
  split; [reflexivity|]. split; [reflexivity|].
  apply (ignored_variable_changes_nothing [] _ [] NoFile). reflexivity.
Defined.

Lemma env_char_plain c :
  upper_or_underscore
    (if Ascii.eqb (lower_ascii c) "_" then "-"%char else lower_ascii c) = false.
Proof. destruct c as [[] [] [] [] [] [] [] []]; reflexivity. Qed.

Lemma env_model_name_plain key : has_upper_or_underscore (env_model_name key) = false.
Proof.
  unfold env_model_name.
  induction (remove_first TOKEN_LIMIT_PREFIX key) as [|c s IH]; [reflexivity|].
  simpl. by rewrite env_char_plain, IH.
Qed.

(** X16.  No environment variable sets the limit of a model whose name
    holds an upper-case letter or an underscore: for such a name the
    table holds what it holds without any environment. *)
Theorem environment_cannot_name amb name :
  has_upper_or_underscore name = true ->
  limits (initialize amb new_manager) !! name
  = limits (initialize {| process_env := []; models_json := models_json amb |}
                       new_manager) !! name.
Proof.
  intros Hname. unfold initialize, loadFromProcessEnv. simpl.
  apply TokenLimitFacts.fold_env_step_other.
  apply forallb_forall. intros [key value] _.
  apply negb_true_iff. unfold is_override. simpl.
  destruct (String.eqb_spec (env_model_name key) name) as [Heq|Hne];
    [|by rewrite andb_false_r].
  pose proof (env_model_name_plain key) as Hplain. rewrite Heq in Hplain. congruence.
Qed.

Lemma environment_cannot_name_witness :
  has_upper_or_underscore "My_Model" = true
  /\ limits (initialize (with_env [ ("MODEL_TOKEN_LIMIT_MY_MODEL", "5000")%string ])
                        new_manager) !! "My_Model"%string = None
  /\ limits (initialize (with_env [ ("MODEL_TOKEN_LIMIT_MY_MODEL", "5000")%string ])
                        new_manager) !! "my-model"%string = Some 5000.
Proof.
  split; [reflexivity|]. split.
  - rewrite (environment_cannot_name
               (with_env [ ("MODEL_TOKEN_LIMIT_MY_MODEL", "5000")%string ])
               "My_Model" eq_refl).
    vm_compute. reflexivity.
  - vm_compute. reflexivity.
Defined.

(** X17.  Without an override in the environment, a limit given in
    models.json that is not zero replaces the built-in one:
    [getTokenLimit] returns it, and so does [tokenLimit] for a name that
    its [switch] does not answer. *)
Theorem file_limit_wins amb config tl name n :
  models_json amb = Parsed config ->
  tokenLimits config = Some tl ->
  tl !! name = Some n ->
  n <> 0 ->
  forallb (fun kv => negb (is_override name kv)) (process_env amb) = true ->
  fst (getTokenLimit amb new_manager name) = n
  /\ (builtin_limit name = None -> fst (tokenLimit true amb None name) = n).
Proof.
  intros Hjson Htl Hn Hz Henv.
  assert (Hentry : limits (initialize amb new_manager) !! name = Some n).
  { rewrite TokenLimitFacts.limits_without_override by done.
    rewrite Hjson. destruct config as [ms tl']. simpl in Htl. subst tl'.
    by rewrite Hn. }
  assert (Hget : fst (getTokenLimit amb new_manager name) = n)
    by by apply TokenLimitFacts.getTokenLimit_entry.
  split; [done|]. intros Hb. by rewrite TokenLimitFacts.tokenLimit_loadable.
Qed.

Lemma file_limit_wins_witness :
  let amb := with_file_limits [ ("gpt-4.1"%string, 150000); ("custom-model"%string, 50000) ] in
  DEFAULT_TOKEN_LIMITS !! "gpt-4.1"%string = Some 128000
  /\ fst (getTokenLimit amb new_manager "gpt-4.1") = 150000
  /\ fst (tokenLimit true amb None "gpt-4.1") = 150000.
Proof.
  intros amb. split; [vm_compute; reflexivity|].
  destruct (file_limit_wins amb _ _ "gpt-4.1" 150000 eq_refl eq_refl
              ltac:(vm_compute; reflexivity) ltac:(lia) eq_refl) as [Hget Htl].
  split; [exact Hget | apply Htl; reflexivity].
Defined.

Lemma builtin_limit_nonzero model n : builtin_limit model = Some n -> n <> 0.
Proof.
  unfold builtin_limit.
  repeat match goal with
         | |- context [if ?b then _ else _] => destruct b
         end; intros [=]; lia.
Qed.

Lemma getTokenLimit_nonzero amb m name : fst (getTokenLimit amb m name) <> 0.
Proof.
  unfold getTokenLimit.
  destruct (limits _ !! name) as [n|].
  - destruct (Z.eqb_spec n 0) as [->|Hn]; simpl; [|done].
    destruct (TokenLimitFacts.pattern_limit_values name) as [-> | [-> | ->]]; lia.
  - simpl. destruct (TokenLimitFacts.pattern_limit_values name) as [-> | [-> | ->]]; lia.
Qed.

(** X18.  [tokenLimit] never returns 0, whatever the environment,
    models.json, the state of the configuration and the name. *)
Theorem tokenLimit_never_zero loadable amb singleton model :
  fst (tokenLimit loadable amb singleton model) <> 0.
Proof.
  unfold tokenLimit.
  destruct (builtin_limit model) as [n|] eqn:Hb; [by apply builtin_limit_nonzero in Hb|].
  destruct loadable.
  - unfold modelConfig_getTokenLimit.
    pose proof (getTokenLimit_nonzero amb (getModelConfig singleton) model) as H.
    by destruct (getTokenLimit amb (getModelConfig singleton) model).
  - simpl. unfold regex_limit, DEFAULT_TOKEN_LIMIT.
    repeat match goal with
           | |- context [if ?b then _ else _] => destruct b
           end; lia.
Qed.

(** X19.  Without configuration, the [switch] of [tokenLimit], the
    table and the patterns agree: every name of the built-in table
    resolves to its entry, through [tokenLimit] and through
    [getTokenLimit]. *)
Theorem defaults_resolve_to_their_entry name n :
  DEFAULT_TOKEN_LIMITS !! name = Some n ->
  fst (tokenLimit true bare None name) = n
  /\ fst (getTokenLimit bare new_manager name) = n.
Proof.
  intros Hn. apply elem_of_list_to_map_2 in Hn.
  assert (Hall : Forall (fun kv => fst (tokenLimit true bare None (fst kv)) = snd kv
                                   /\ fst (getTokenLimit bare new_manager (fst kv)) = snd kv)
                        DEFAULT_TOKEN_LIMITS_entries).
  { unfold DEFAULT_TOKEN_LIMITS_entries.
    repeat (constructor; [split; vm_compute; reflexivity|]). constructor. }
  rewrite Forall_forall in Hall. exact (Hall (name, n) Hn).
Qed.

Lemma defaults_resolve_to_their_entry_witness :
  DEFAULT_TOKEN_LIMITS !! "gpt-4.1-mini"%string = Some 16384
  /\ fst (tokenLimit true bare None "gpt-4.1-mini") = 16384
  /\ regex_limit "gpt-4.1-mini" = 128000.
Proof.
  assert (H : DEFAULT_TOKEN_LIMITS !! "gpt-4.1-mini"%string = Some 16384)
    by (vm_compute; reflexivity).
  split; [exact H|].
  split; [exact (proj1 (defaults_resolve_to_their_entry _ _ H))|].
  vm_compute. reflexivity.
Defined.

End ConfigFacts.

(* ===================================================================== *)
(** ** Model names, configuration resolution and the factory               *)
(* ===================================================================== *)

Module FactoryFacts.

Import Js JsString ModelConfig ModelNames ContentGenerator OpenAIClient Factory Scenario.

Lemma env_var_truthy env name v : env_var env name = Some v -> truthy v = true.
Proof.
  unfold env_var. destruct (env_get env name) as [w|]; [|discriminate].
  destruct (truthy w) eqn:Hw; [|discriminate]. by intros [= <-].
Qed.

Lemma fold_overrides_lookup env ks : forall (mo : gmap string string) key,
  fold_left
    (fun mo key =>
       match env_get env key with
       | Some envValue => if truthy envValue then <[key := envValue]> mo else mo
       | None => mo
       end) ks mo !! key
  = match (if decide (key ∈ ks) then env_var env key else None) with
    | Some v => Some v
    | None => mo !! key
    end.
Proof.
  induction ks as [|k ks IH]; intros mo key; [reflexivity|].
  simpl. rewrite IH.
  destruct (decide (key ∈ ks)) as [Hin|Hnin].
  - rewrite decide_True by set_solver.
    destruct (env_var env key) as [v|] eqn:Hv; [reflexivity|].
    destruct (decide (k = key)) as [->|Hne].
    + unfold env_var in Hv. destruct (env_get env key) as [w|]; [|reflexivity].
      destruct (truthy w); [discriminate | reflexivity].
    + destruct (env_get env k) as [w|]; [|reflexivity].
      destruct (truthy w); [by rewrite lookup_insert_ne | reflexivity].
  - destruct (decide (k = key)) as [->|Hne].
    + rewrite decide_True by set_solver. unfold env_var.
      destruct (env_get env key) as [w|]; [|reflexivity].
      destruct (truthy w); [by rewrite lookup_insert_eq | reflexivity].
    + rewrite decide_False by (rewrite elem_of_cons; intros [?|?]; congruence).
      destruct (env_get env k) as [w|]; [|reflexivity].
      destruct (truthy w); [by rewrite lookup_insert_ne | reflexivity].
Qed.

Lemma getModel_lookup_fresh amb m key :
  isInitialized m = false ->
  fst (getModel amb m key) =
  match (if decide (key ∈ envKeys) then env_var (process_env amb) key else None) with
  | Some v => Some v
  | None =>
      match models_json amb with
      | Parsed {| models := Some ms |} =>
          match ms !! key with
          | Some v => Some v
          | None => modelOverrides m !! key
          end
      | _ => modelOverrides m !! key
      end
  end.
Proof.
  intros Hfresh.
  assert (Henv : forall m',
    modelOverrides (loadFromProcessEnv amb m') !! key =
    match (if decide (key ∈ envKeys) then env_var (process_env amb) key else None) with
    | Some v => Some v
    | None => modelOverrides m' !! key
    end).
  { intros m'. unfold loadFromProcessEnv.
    cbn [modelOverrides]. apply fold_overrides_lookup. }
  unfold getModel. rewrite Hfresh. unfold initialize. rewrite Hfresh.
  cbn [fst modelOverrides]. rewrite Henv.
  destruct (if decide (key ∈ envKeys) then env_var (process_env amb) key else None);
    [reflexivity|].
  unfold loadFromJson.
  destruct (models_json amb) as [| |[[ms|] tl]]; try reflexivity.
  - destruct tl; cbn [models tokenLimits modelOverrides];
      unfold spread; rewrite lookup_union;
      by destruct (ms !! key), (modelOverrides m !! key).
  - by destruct tl.
Qed.

Lemma getModel_lookup amb key :
  fst (getModel amb new_manager key) =
  match (if decide (key ∈ envKeys) then env_var (process_env amb) key else None) with
  | Some v => Some v
  | None =>
      match models_json amb with
      | Parsed {| models := Some ms |} =>
          match ms !! key with
          | Some v => Some v
          | None => DEFAULT_MODEL_VALUES !! key
          end
      | _ => DEFAULT_MODEL_VALUES !! key
      end
  end.
Proof. exact (getModel_lookup_fresh amb new_manager key eq_refl). Qed.

(** X20.  For each of the four model keys, [getModel] returns the
    environment variable of that name when it is set and not empty,
    otherwise the entry of models.json, otherwise the built-in name;
    it is never undefined. *)
Theorem model_name_layers amb key :
  key ∈ envKeys ->
  is_Some (fst (getModel amb new_manager key))
  /\ fst (getModel amb new_manager key) =
       match env_var (process_env amb) key with
       | Some v => Some v
       | None =>
           match models_json amb with
           | Parsed {| models := Some ms |} =>
               match ms !! key with
               | Some v => Some v
               | None => DEFAULT_MODEL_VALUES !! key
               end
           | _ => DEFAULT_MODEL_VALUES !! key
           end
       end.
Proof.
  intros Hkey.
  assert (Hdefault : is_Some (DEFAULT_MODEL_VALUES !! key)).
  { unfold envKeys in Hkey.
    repeat (apply elem_of_cons in Hkey as [-> | Hkey]; [vm_compute; eauto|]).
    by apply elem_of_nil in Hkey. }
  rewrite getModel_lookup, decide_True by done.
  split; [|reflexivity].
  destruct (env_var (process_env amb) key); [eauto|].
  destruct (models_json amb) as [| |[[ms|] tl]]; try done.
  by destruct (ms !! key).
Qed.

Lemma model_name_layers_witness :
  let amb :=
    {| process_env := [ ("DEFAULT_GEMINI_MODEL", "from-env")%string ];
       models_json :=
         Parsed {| models := Some {[ "DEFAULT_GEMINI_MODEL"%string := "from-json"%string;
                                     "DEFAULT_GEMINI_FLASH_MODEL"%string := "gpt-4.1-mini"%string ]};
                   tokenLimits := None |} |} in
  "DEFAULT_GEMINI_MODEL"%string ∈ envKeys
  /\ fst (getModel amb new_manager "DEFAULT_GEMINI_MODEL") = Some "from-env"%string.
Proof.
  intros amb.
  assert (H : "DEFAULT_GEMINI_MODEL"%string ∈ envKeys) by (unfold envKeys; set_solver).
  split; [exact H|].
  rewrite (proj2 (model_name_layers amb _ H)). reflexivity.
Defined.

(** X21.  The exported constant DEFAULT_GEMINI_MODEL is never the empty
    string: it is the environment variable when set, else the entry of
    models.json when that is not empty, else 'gemini-2.5-pro'; and
    'gemini-2.5-pro' when the configuration does not load. *)
Theorem default_model_constant loadable amb :
  truthy (DEFAULT_GEMINI_MODEL loadable amb) = true
  /\ DEFAULT_GEMINI_MODEL loadable amb =
       if loadable then
         match env_var (process_env amb) "DEFAULT_GEMINI_MODEL" with
         | Some v => v
         | None =>
             match models_json amb with
             | Parsed {| models := Some ms |} =>
                 match ms !! "DEFAULT_GEMINI_MODEL"%string with
                 | Some v => if truthy v then v else "gemini-2.5-pro"%string
                 | None => "gemini-2.5-pro"%string
                 end
             | _ => "gemini-2.5-pro"%string
             end
         end
       else "gemini-2.5-pro"%string.
Proof.
  unfold DEFAULT_GEMINI_MODEL, constant_getModel.
  destruct loadable; [|by split].
  change (getModelConfig None) with new_manager.
  rewrite getModel_lookup, decide_True by (unfold envKeys; set_solver).
  destruct (env_var (process_env amb) "DEFAULT_GEMINI_MODEL") as [v|] eqn:Hv.
  - rewrite (env_var_truthy _ _ _ Hv). by split; [apply (env_var_truthy _ _ _ Hv)|].
  - destruct (models_json amb) as [| |[[ms|] tl]]; try (by split).
    destruct (ms !! "DEFAULT_GEMINI_MODEL"%string) as [v|]; [|by split].
    by destruct (truthy v) eqn:Htv.
Qed.

Lemma given_env_var env name : given (env_var env name) = present (env_var env name).
Proof.
  destruct (env_var env name) as [v|] eqn:Hv; [|reflexivity].
  simpl. by apply env_var_truthy in Hv.
Qed.

(** X22.  The configuration that [createContentGeneratorConfig] returns
    keeps the requested auth mode and always names a provider; its API
    key and base URL are never empty strings; and when the provider is
    OpenAI or OpenAI-compatible, the auth mode is the matching one and
    both the API key and the base URL are present. *)
Theorem resolved_config_invariant env s auth :
  let c := createContentGeneratorConfig env s auth in
  authType c = auth
  /\ is_Some (provider c)
  /\ apiKey c <> Some EmptyString
  /\ baseUrl c <> Some EmptyString
  /\ (provider c = Some OPENAI ->
      auth = Some OPENAI_API_KEY /\ given (apiKey c) = true /\ given (baseUrl c) = true)
  /\ (provider c = Some OPENAI_COMPATIBLE ->
      auth = Some AUTH_OPENAI_COMPATIBLE
      /\ apiKey c = env_var env "OPENAI_API_KEY"
      /\ baseUrl c = env_var env "OPENAI_BASE_URL"
      /\ given (apiKey c) = true /\ given (baseUrl c) = true).
Proof.
  unfold createContentGeneratorConfig.
  assert (Hne : forall name v, env_var env name = Some v -> Some v <> Some EmptyString).
  { intros name v Hv [= ->]. by apply env_var_truthy in Hv. }
  assert (Hgiven : forall name v, env_var env name = Some v -> given (Some v) = true).
  { intros name v Hv. simpl. by apply env_var_truthy in Hv. }
  destruct auth as [[]|]; cbn [authType provider apiKey baseUrl base_config].
  - repeat split; eauto; discriminate.
  - destruct (env_var env "GEMINI_API_KEY") as [k|] eqn:Hk;
      cbn [authType provider apiKey baseUrl base_config set_key];
      repeat split; eauto; discriminate.
  - destruct (present (env_var env "GOOGLE_API_KEY")
              || present (env_var env "GOOGLE_CLOUD_PROJECT")
                 && present (env_var env "GOOGLE_CLOUD_LOCATION"));
      cbn [authType provider apiKey baseUrl base_config set_key];
      repeat split; eauto; try discriminate.
    destruct (env_var env "GOOGLE_API_KEY") as [k|] eqn:Hk; eauto; discriminate.
  - repeat split; eauto; discriminate.
  - destruct (env_var env "OPENAI_API_KEY") as [k|] eqn:Hk;
      cbn [authType provider apiKey baseUrl base_config set_openai];
      [| repeat split; eauto; discriminate].
    assert (Hurl : given (Some (default OPENAI_DEFAULT_BASE_URL
                                  (env_var env "OPENAI_BASE_URL"))) = true).
    { destruct (env_var env "OPENAI_BASE_URL") as [u|] eqn:Hu; [eauto | reflexivity]. }
    repeat split; eauto; try discriminate.
    intros [= Hempty]. simpl in Hurl. by rewrite Hempty in Hurl.
  - destruct (env_var env "OPENAI_API_KEY") as [k|] eqn:Hk;
      [destruct (env_var env "OPENAI_BASE_URL") as [u|] eqn:Hu |];
      cbn [authType provider apiKey baseUrl base_config set_openai];
      repeat split; eauto; discriminate.
  - repeat split; eauto; discriminate.
Qed.

Lemma generateContent_calls fetch g request log :
  snd (generateContent fetch g request log) =
  snd (makeRequest fetch g "/chat/completions" (openAIRequest_of g request) log).
Proof.
  unfold generateContent.
  by destruct (makeRequest fetch g "/chat/completions" (openAIRequest_of g request) log).
Qed.

Lemma generateContentStream_calls fetch JSON_parse g request log :
  snd (generateContentStream fetch JSON_parse g request log) =
  snd (makeStreamRequest fetch JSON_parse g "/chat/completions"
         (openAIRequest_of g request) log).
Proof.
  unfold generateContentStream.
  by destruct (makeStreamRequest fetch JSON_parse g "/chat/completions"
                 (openAIRequest_of g request) log).
Qed.

Lemma given_some env name v : env_var env name = Some v -> given (Some v) = true.
Proof. intros Hv. simpl. by apply env_var_truthy in Hv. Qed.

Lemma construct_openai_modes env s userAgent :
  createContentGenerator userAgent
    (createContentGeneratorConfig env s (Some OPENAI_API_KEY))
  = match env_var env "OPENAI_API_KEY" with
    | Some key =>
        Ok (OpenAIGenerator
              {| config := createContentGeneratorConfig env s (Some OPENAI_API_KEY);
                 httpOptions := {[ "User-Agent"%string := userAgent ]} |})
    | None => Throw (Error "OpenAI API key is required")
    end
  /\ createContentGenerator userAgent
       (createContentGeneratorConfig env s (Some AUTH_OPENAI_COMPATIBLE))
     = match env_var env "OPENAI_API_KEY", env_var env "OPENAI_BASE_URL" with
       | Some key, Some url =>
           Ok (OpenAIGenerator
                 {| config :=
                      createContentGeneratorConfig env s (Some AUTH_OPENAI_COMPATIBLE);
                    httpOptions := {[ "User-Agent"%string := userAgent ]} |})
       | _, _ => Throw (Error "OpenAI API key is required")
       end.
Proof.
  unfold createContentGeneratorConfig, createContentGenerator, new_OpenAIContentGenerator.
  split.
  - destruct (env_var env "OPENAI_API_KEY") as [k|] eqn:Hk; [|reflexivity].
    cbn [selects_openai provider authType set_openai base_config apiKey baseUrl].
    rewrite (given_some _ _ _ Hk).
    destruct (env_var env "OPENAI_BASE_URL") as [u|] eqn:Hu; [|reflexivity].
    change (default OPENAI_DEFAULT_BASE_URL (Some u)) with u.
    by rewrite (given_some _ _ _ Hu).
  - destruct (env_var env "OPENAI_API_KEY") as [k|] eqn:Hk; [|reflexivity].
    destruct (env_var env "OPENAI_BASE_URL") as [u|] eqn:Hu; [|reflexivity].
    cbn [selects_openai provider authType set_openai base_config apiKey baseUrl].
    by rewrite (given_some _ _ _ Hk), (given_some _ _ _ Hu).
Qed.

(** X23.  With the auth mode openai-api-key, [createContentGenerator]
    on the resolved configuration returns an OpenAI generator when
    OPENAI_API_KEY is set, and throws 'OpenAI API key is required'
    when it is not.  With the auth mode openai-compatible it returns
    one when both OPENAI_API_KEY and OPENAI_BASE_URL are set, and
    throws the same error otherwise, also when only the URL is
    missing. *)
Theorem openai_modes_construct env s userAgent :
  createContentGenerator userAgent
    (createContentGeneratorConfig env s (Some OPENAI_API_KEY))
  = match env_var env "OPENAI_API_KEY" with
    | Some key =>
        Ok (OpenAIGenerator
              {| config := createContentGeneratorConfig env s (Some OPENAI_API_KEY);
                 httpOptions := {[ "User-Agent"%string := userAgent ]} |})
    | None => Throw (Error "OpenAI API key is required")
    end
  /\ createContentGenerator userAgent
       (createContentGeneratorConfig env s (Some AUTH_OPENAI_COMPATIBLE))
     = match env_var env "OPENAI_API_KEY", env_var env "OPENAI_BASE_URL" with
       | Some key, Some url =>
           Ok (OpenAIGenerator
                 {| config :=
                      createContentGeneratorConfig env s (Some AUTH_OPENAI_COMPATIBLE);
                    httpOptions := {[ "User-Agent"%string := userAgent ]} |})
       | _, _ => Throw (Error "OpenAI API key is required")
       end.
Proof. apply construct_openai_modes. Qed.

(** X24.  A generator that the factory makes from OPENAI_API_KEY sends
    its requests to the base URL of the environment, or to the official
    endpoint without one, with Authorization 'Bearer ' and the key, the
    User-Agent of the client, and no organization header. *)
Theorem factory_generator_requests env s userAgent key fetch request log :
  env_var env "OPENAI_API_KEY" = Some key ->
  exists g call,
    createContentGenerator userAgent
      (createContentGeneratorConfig env s (Some OPENAI_API_KEY))
    = Ok (OpenAIGenerator g)
    /\ snd (generateContent fetch g request log) = log ++ [call]
    /\ url call =
         String.append (default OPENAI_DEFAULT_BASE_URL (env_var env "OPENAI_BASE_URL"))
                       "/chat/completions"
    /\ headers call !! "Authorization"%string = Some (String.append "Bearer " key)
    /\ headers call !! "User-Agent"%string = Some userAgent
    /\ headers call !! "OpenAI-Organization"%string = None.
Proof.
  intros Hkey.
  pose proof (proj1 (construct_openai_modes env s userAgent)) as Hmake.
  rewrite Hkey in Hmake.
  eexists _, _. split; [exact Hmake|].
  rewrite generateContent_calls, GeneratorFacts.makeRequest_call.
  split; [reflexivity|].
  cbn [url headers].
  rewrite !GeneratorFacts.request_headers_lookup.
  unfold createContentGeneratorConfig, endpoint_url, organization_of.
  rewrite Hkey.
  cbn [config httpOptions openaiConfig set_openai base_config apiKey baseUrl interpolate default].
  repeat split.
Qed.

Lemma factory_generator_requests_witness :
  let env := [ ("OPENAI_API_KEY", "sk-test")%string; ("OPENAI_BASE_URL", "")%string ] in
  let s := {| settings_model := "gpt-4"; settings_proxy := None;
              default_model := "gemini-2.5-pro" |} in
  env_var env "OPENAI_API_KEY" = Some "sk-test"%string
  /\ exists g call,
       createContentGenerator "GeminiCLI" (createContentGeneratorConfig env s (Some OPENAI_API_KEY))
       = Ok (OpenAIGenerator g)
       /\ snd (generateContent offline g (hello_request None) []) = [call]
       /\ url call = "https://api.openai.com/v1/chat/completions"%string
       /\ headers call !! "Authorization"%string = Some "Bearer sk-test"%string.
Proof.
  intros env s. split; [reflexivity|].
  destruct (factory_generator_requests env s "GeminiCLI" "sk-test" offline
              (hello_request None) [] eq_refl)
    as (g & call & Hg & Hcall & Hurl & Hauth & _).
  exists g, call. split; [exact Hg|]. split; [exact Hcall|].
  split; [exact Hurl | exact Hauth].
Defined.

(** X25.  On a resolved configuration the factory throws 'Unsupported
    authType/provider' exactly when no auth mode is given; the provider
    it names is then gemini. *)
Theorem unsupported_without_auth_mode env s userAgent auth :
  createContentGenerator userAgent (createContentGeneratorConfig env s auth)
  = Throw (Error "Error creating contentGenerator: Unsupported authType/provider: undefined/gemini")
  <-> auth = None.
Proof.
  split.
  - destruct auth as [[]|]; [| | | | | |reflexivity]; intros H; exfalso.
    + discriminate H.
    + unfold createContentGeneratorConfig, createContentGenerator in H.
      destruct (env_var env "GEMINI_API_KEY"); discriminate H.
    + unfold createContentGeneratorConfig, createContentGenerator in H.
      destruct (present _ || _); discriminate H.
    + discriminate H.
    + rewrite (proj1 (construct_openai_modes env s userAgent)) in H.
      destruct (env_var env "OPENAI_API_KEY"); discriminate H.
    + rewrite (proj2 (construct_openai_modes env s userAgent)) in H.
      destruct (env_var env "OPENAI_API_KEY"), (env_var env "OPENAI_BASE_URL");
        discriminate H.
  - intros ->. reflexivity.
Qed.

End FactoryFacts.

(* ===================================================================== *)
(** ** Requests and their failures                                         *)
(* ===================================================================== *)

Module RequestFacts.

Import Js FormatMapper ContentGenerator OpenAIClient Scenario.

(** X26.  [generateContent] and [generateContentStream] each perform
    exactly one fetch, whatever its outcome: a POST to the base URL
    followed by /chat/completions.  The two requests carry the same
    headers but Accept, and the same body but [stream: true]. *)
Theorem one_fetch_per_request fetch JSON_parse g request log :
  exists call scall,
    snd (generateContent fetch g request log) = log ++ [call]
    /\ snd (generateContentStream fetch JSON_parse g request log) = log ++ [scall]
    /\ url call = String.append (interpolate (baseUrl (config g))) "/chat/completions"
    /\ url scall = url call
    /\ method call = "POST"%string /\ method scall = "POST"%string
    /\ body call = openAIRequest_of g request
    /\ body scall = with_stream (body call)
    /\ (forall h, h <> "Accept"%string -> headers scall !! h = headers call !! h).
Proof.
  eexists _, _.
  rewrite FactoryFacts.generateContent_calls, FactoryFacts.generateContentStream_calls.
  rewrite GeneratorFacts.makeRequest_call, GeneratorFacts.makeStreamRequest_call.
  repeat (split; [reflexivity|]).
  intros h Hh. cbn [headers].
  rewrite !GeneratorFacts.request_headers_lookup. unfold required_header.
  destruct (organization_of g);
    repeat case_decide; try done; by destruct (httpOptions g !! h).
Qed.

Lemma api_error_cases response :
  (forall e, json response = Throw e ->
             api_error response =
               ApiError (status response) (statusText response) (VStr EmptyString))
  /\ (forall b, json response = Ok b -> nullish b = true ->
                api_error response = TypeError)
  /\ (forall b, json response = Ok b -> nullish b = false ->
                api_error response =
                  ApiError (status response) (statusText response)
                           (or (get_opt (field b "error") "message") (VStr EmptyString))).
Proof.
  unfold api_error, get. repeat split.
  - by intros e ->.
  - by intros b -> ->.
  - by intros b -> ->.
Qed.

(** X27.  When the server answers with an error status, [generateContent]
    throws and [generateContentStream] fails before its first element,
    with the same error: it carries the status, the status text and the
    [error.message] of the body, or the empty string when the body is
    not JSON or has no such message; a body that is the JSON [null]
    gives a TypeError instead. *)
Theorem error_status_surfaces fetch JSON_parse g request log response :
  (forall l c, fetch l c = Ok response) ->
  ok response = false ->
  fst (generateContent fetch g request log) = Throw (api_error response)
  /\ fst (generateContentStream fetch JSON_parse g request log) =
       {| yielded := []; failure := Some (api_error response) |}
  /\ (forall e, json response = Throw e ->
                api_error response =
                  ApiError (status response) (statusText response) (VStr EmptyString))
  /\ (forall b, json response = Ok b -> nullish b = true ->
                api_error response = TypeError)
  /\ (forall b, json response = Ok b -> nullish b = false ->
                api_error response =
                  ApiError (status response) (statusText response)
                           (or (get_opt (field b "error") "message") (VStr EmptyString))).
Proof.
  intros Hfetch Hok. split; [|split; [|apply api_error_cases]].
  - unfold generateContent, makeRequest. by rewrite Hfetch, Hok.
  - unfold generateContentStream, makeStreamRequest. by rewrite Hfetch, Hok.
Qed.

Lemma error_status_surfaces_witness :
  let response :=
    {| ok := false; status := 400; statusText := "Bad Request";
       json := Ok (VObj [ ("error"%string,
                           VObj [ ("message"%string, VStr "Invalid request") ]) ]);
       reader := None |} in
  let g := {| config := openai_config (Some "sk-test"%string)
                          (Some "https://api.openai.com/v1"%string) None;
              httpOptions := ∅ |} in
  (forall l c, Network.answering response l c = Ok response)
  /\ ok response = false
  /\ fst (generateContent (Network.answering response) g (hello_request None) []) =
       Throw (ApiError 400 "Bad Request" (VStr "Invalid request")).
Proof.
  intros response g. split; [reflexivity|]. split; [reflexivity|].
  destruct (error_status_surfaces (Network.answering response) Json.parse g
              (hello_request None) [] response (fun _ _ => eq_refl) eq_refl)
    as (Hgen & _ & _ & _ & Hmsg).
  rewrite Hgen, (Hmsg _ eq_refl eq_refl). reflexivity.
Defined.

End RequestFacts.
